(** * poly_edge_b20_reboot.py: a shallow embedding and its properties

    The script polls a fleet of IP phones: it pings each one, scrapes the
    status page with a headless browser, reboots the phone when it is idle,
    writes an HTML report and mails it with retries.

    Everything the script does to the outside world (ping, browser, SMTP,
    file system, console) is recorded as an [event] in a trace, whether it
    succeeds or raises; what the outside world answers is read from an
    environment record or, for the console, from the class [Console].
    Python exceptions are the [Raise] case of [outcome]. *)

From Stdlib Require Import String Ascii List ZArith Lia Bool Permutation.
From Stdlib Require Import DecimalString.
Import ListNotations.
Open Scope string_scope.
Open Scope Z_scope.

Set Implicit Arguments.
Set Warnings "-register-all".

(** ** Python values and exceptions *)

(** The classes of [Exception] the script can meet.  All of them are caught
    by [except Exception] and by a bare [except]. *)
Inductive exn_class :=
| ValueError | KeyError | AttributeError | OSError
| WebDriverException | SMTPException | RuntimeError
| UnicodeEncodeError | UnicodeDecodeError.

Record exn := mkExn { exn_cls : exn_class; exn_msg : string }.

Inductive outcome (A : Type) :=
| Ok (a : A)
| Raise (e : exn).
Arguments Ok {A} a.
Arguments Raise {A} e.

Definition is_ok {A} (o : outcome A) : bool :=
  match o with Ok _ => true | Raise _ => false end.

(** [isinstance(e, UnicodeEncodeError)] *)
Definition is_encode_error (e : exn) : bool :=
  match exn_cls e with
  | UnicodeEncodeError => true
  | _ => false
  end.

(** [needle in haystack] on strings. *)
Fixpoint str_in (needle haystack : string) : bool :=
  if String.prefix needle haystack then true
  else match haystack with
       | EmptyString => false
       | String _ rest => str_in needle rest
       end.

(** [str(n)] for an integer. *)
Definition str_of_Z (n : Z) : string := NilZero.string_of_int (Z.to_int n).

(** [range(lo, hi)]: the [n] integers from [lo] on, with [n = hi - lo] when
    that is positive and none otherwise. *)
Fixpoint range_from (lo : Z) (n : nat) : list Z :=
  match n with
  | O => []
  | S n' => lo :: range_from (lo + 1) n'
  end.

Definition py_range (lo hi : Z) : list Z := range_from lo (Z.to_nat (hi - lo)).

(** Builtins of [str] whose exact behaviour (Unicode white space, case
    mapping, integer syntax) is the interpreter's. *)
Class PyStr := {
  strip : string -> string;
  lower : string -> string;
  int_of_str : string -> outcome Z
}.

(** The console the script prints to, and the codecs of [write_log]. *)
Class Console := {
  (** [print(line)]: the console's encoding may reject the line with
      UnicodeEncodeError. *)
  console_print : string -> outcome unit;
  (** [line.encode("utf-8", errors="replace").decode("cp1252")]: the bytes
      of the line read as cp1252, which has no character for five of them. *)
  cp1252_of_utf8 : string -> outcome string
}.

(** The part of BeautifulSoup the script calls. *)
Class Bs4 := {
  soup : Type;
  tag : Type;
  (** [BeautifulSoup(src, "html.parser")] *)
  BeautifulSoup : string -> outcome soup;
  (** [soup.find("td", string=s)] *)
  soup_find_td : soup -> string -> option tag;
  (** [soup.find_all("div", class_="title")] *)
  soup_find_all_div_title : soup -> list tag;
  (** [t.find("td", string=s)] *)
  tag_find_td : tag -> string -> option tag;
  (** [t.find_next_sibling(name)] *)
  find_next_sibling : tag -> string -> option tag;
  (** [t.get_text(strip=True)] *)
  get_text_strip : tag -> string;
  (** [t.text] *)
  tag_text : tag -> string
}.

(** ** Data of the script *)

(** A device dictionary, with its four keys. *)
Record Device := mkDevice {
  d_ip : string;
  d_user : string;
  d_pass : string;
  d_name : string
}.

(** An element of [log_entries]: [(ip, name, uptime, callstate)]. *)
Definition log_entry : Type := string * string * string * string.

Definition entry_callstate (e : log_entry) : string := snd e.

(** ** Effects *)

Inductive event :=
| EPing (ip : string)                       (* subprocess.check_output(["ping", ...]) *)
| EChrome                                   (* webdriver.Chrome(options=options) *)
| EGet (url : string)                       (* driver.get(url) *)
| EPageSource (url : string)                (* driver.page_source *)
| EQuit                                     (* driver.quit() *)
| ESleep (secs : Z)                         (* time.sleep(secs) *)
| EPrint (line : string)                    (* print(line) *)
| EAppend (entry : log_entry)               (* log_entries.append(entry) *)
| EReadCsv (path : string)                  (* open(file_path) and csv.DictReader *)
| EMakedirs (path : string)                 (* os.makedirs(path) *)
| EWriteFile (path content : string)        (* open(path, "w") and f.write(content) *)
| ESmtp (subject html : string).            (* one SMTP session sending the message *)

(** A computation: the events it performed, and how it ended. *)
Definition M (E A : Type) : Type := list E * outcome A.

Definition ret {E A} (a : A) : M E A := ([], Ok a).

Definition bind {E A B} (m : M E A) (k : A -> M E B) : M E B :=
  match m with
  | (t, Ok a) => let (t', r) := k a in ((t ++ t')%list, r)
  | (t, Raise e) => (t, Raise e)
  end.

Notation "x <- m ;; k" := (bind m (fun x => k))
  (at level 61, m at next level, right associativity).
Notation "m ;;; k" := (bind m (fun _ => k))
  (at level 61, right associativity).

(** Perform an operation of the outside world: record it, then take the
    world's answer. *)
Definition perform {E A} (ev : E) (answer : outcome A) : M E A := ([ev], answer).

Definition emit {E} (ev : E) : M E unit := ([ev], Ok tt).

(** [try: body / except Exception as e: handler e] *)
Definition try_except {E A} (body : M E A) (handler : exn -> M E A) : M E A :=
  match body with
  | (t, Ok a) => (t, Ok a)
  | (t, Raise e) => let (t', r) := handler e in ((t ++ t')%list, r)
  end.

(** [try: body / except <class> as e: handler e], for the exceptions
    [caught] tells; the others pass. *)
Definition try_except_when {E A} (caught : exn -> bool) (body : M E A)
    (handler : exn -> M E A) : M E A :=
  match body with
  | (t, Ok a) => (t, Ok a)
  | (t, Raise e) =>
      if caught e then let (t', r) := handler e in ((t ++ t')%list, r)
      else (t, Raise e)
  end.

(** [try: body / finally: cleanup] *)
Definition try_finally {E A} (body : M E A) (cleanup : M E unit) : M E A :=
  let (t, r) := body in
  match cleanup with
  | (t', Ok _) => ((t ++ t')%list, r)
  | (t', Raise e) => ((t ++ t')%list, Raise e)
  end.

Definition trace {E A} (m : M E A) : list E := fst m.
Definition result {E A} (m : M E A) : outcome A := snd m.

(** [write_log(message)]: the line is printed; when the console rejects it
    with UnicodeEncodeError, its UTF-8 bytes are read as cp1252 and that
    text is printed instead.  An exception of the recoding or of the second
    [print] leaves [write_log], as any other exception of the first [print]
    does.  The time stamp, which is made of ASCII digits and punctuation, is
    left out of the line. *)
Definition write_log `{Console} (message : string) : M event unit :=
  try_except_when is_encode_error
    (perform (EPrint message) (console_print message))
    (fun _ =>
       text <- ([], cp1252_of_utf8 message) ;;
       perform (EPrint text) (console_print text)).

(** [time.sleep(secs)] rejects a negative length. *)
Definition sleep (secs : Z) : M event unit :=
  if secs <? 0 then ([], Raise (mkExn ValueError "sleep length must be non-negative"))
  else emit (ESleep secs).

(** ** The browser and the per-device environment *)

(** A Chrome session as seen by the script: what navigating to a URL does,
    what the page source is after navigating there, and what quitting does. *)
Record WebDriver := mkDriver {
  drv_get : string -> outcome unit;
  drv_page_source : string -> outcome string;
  drv_quit : outcome unit
}.

(** What one device task meets: the ping and the browser start-up. *)
Record TaskEnv := mkTaskEnv {
  env_ping : outcome unit;
  env_chrome : outcome WebDriver
}.

Definition IDLE : string := "0 Active Calls".
Definition NA : string := "N/A".
Definition UNREACHABLE : string := "Unreachable".

Section Script.

Context {pystr : PyStr} {bs4 : Bs4} {console : Console}.

(** [is_reachable(ip)] *)
Definition is_reachable (env : TaskEnv) (ip : string) : M event bool :=
  try_except
    (perform (EPing ip) (env_ping env) ;;; ret true)
    (fun _ => ret false).

(** [create_driver()] *)
Definition create_driver (env : TaskEnv) : M event WebDriver :=
  perform EChrome (env_chrome env).

Definition status_url (ip user passwd : string) : string :=
  "http://" ++ user ++ ":" ++ passwd ++ "@" ++ ip ++ "/DI_S_.xml".

Definition reboot_url (ip user passwd : string) : string :=
  "http://" ++ user ++ ":" ++ passwd ++ "@" ++ ip ++ "/rebootgetconfig.htm".

(** Lines 93-96 of [get_ipphone_status]: the UpTime field. *)
Definition parse_uptime (s : soup) (uptime : string) : string :=
  match soup_find_td s "UpTime" with
  | Some uptime_td =>
      match find_next_sibling uptime_td "td" with
      | Some uptime_value_td => strip (tag_text uptime_value_td)
      | None => NA
      end
  | None => uptime
  end.

(** Lines 98-105 of [get_ipphone_status]: the loop over the title sections,
    left at the first "Service Status" section. *)
Fixpoint parse_callstate (sections : list tag) (callstate : string) : string :=
  match sections with
  | [] => callstate
  | section :: rest =>
      if str_in "Service Status" (get_text_strip section) then
        let table := find_next_sibling section "table" in
        let callstate_td :=
          match table with
          | Some t => tag_find_td t "CallState"
          | None => None
          end in
        match callstate_td with
        | Some td =>
            match find_next_sibling td "td" with
            | Some val_td => strip (tag_text val_td)
            | None => NA
            end
        | None => callstate
        end
      else parse_callstate rest callstate
  end.

(** [get_ipphone_status(driver, ip, user, passwd, name)] *)
Definition get_ipphone_status (driver : WebDriver) (ip user passwd name : string)
  : M event (string * string) :=
  let url := status_url ip user passwd in
  r <- try_except
         (perform (EGet url) (drv_get driver url) ;;;
          sleep 2 ;;;
          src <- perform (EPageSource url) (drv_page_source driver url) ;;
          s <- ([], BeautifulSoup src) ;;
          let uptime := parse_uptime s NA in
          let callstate := parse_callstate (soup_find_all_div_title s) NA in
          ret (Some (uptime, callstate)))
         (fun e =>
            write_log ("[ERROR] Error reading DI_S_.xml from " ++ ip ++ " (" ++ name ++ "): "
                       ++ exn_msg e) ;;;
            ret None) ;;
  match r with
  | None => ret (NA, NA)
  | Some (uptime, callstate) =>
      write_log ("[INFO] " ++ ip ++ " (" ++ name ++ ") - UpTime: " ++ uptime
                 ++ ", CallState: " ++ callstate) ;;;
      ret (uptime, callstate)
  end.

(** The entries a trace appended to [log_entries], in order. *)
Fixpoint appended (t : list event) : list log_entry :=
  match t with
  | [] => []
  | EAppend e :: t' => e :: appended t'
  | _ :: t' => appended t'
  end.

(** [reboot_ipphone(device)] *)
Definition reboot_ipphone (env : TaskEnv) (device : Device) : M event unit :=
  let ip := d_ip device in
  let name := d_name device in
  reachable <- is_reachable env ip ;;
  if negb reachable then
    write_log ("[ERROR] " ++ ip ++ " (" ++ name
               ++ ") is not reachable (ping failed). Skipping reboot.") ;;;
    emit (EAppend (ip, name, NA, UNREACHABLE))
  else
    driver <- create_driver env ;;
    st <- get_ipphone_status driver ip (d_user device) (d_pass device) name ;;
    let (uptime, callstate) := st in
    emit (EAppend (ip, name, uptime, callstate)) ;;;
    try_finally
      (try_except
         (if negb (callstate =? IDLE)%string then
            write_log ("[SKIPPED] Reboot for " ++ ip ++ " (" ++ name
                       ++ ") - CallState not idle: " ++ callstate)
          else
            let url := reboot_url ip (d_user device) (d_pass device) in
            perform (EGet url) (drv_get driver url) ;;;
            write_log ("[SUCCESS] Reboot triggered for " ++ ip ++ " (" ++ name ++ ")"))
         (fun e =>
            write_log ("[ERROR] Error rebooting " ++ ip ++ " (" ++ name ++ "): " ++ exn_msg e)))
      (try_except (perform EQuit (drv_quit driver)) (fun _ => ret tt)).

(** ** The report *)

Definition dq : string := String (ascii_of_nat 34) EmptyString.

Definition row_style_of (colour : string) : string :=
  " style=" ++ dq ++ "background-color: " ++ colour ++ ";" ++ dq.

(** Lines 156-167 of [build_html_report]: the row style and the status
    label of a call state. *)
Definition row_class (callstate : string) : string * string :=
  if (callstate =? "Unreachable")%string then (row_style_of "#ff9999", "Unreachable")
  else if (callstate =? "N/A")%string then (row_style_of "#ffcccc", "Error")
  else if negb (callstate =? "0 Active Calls")%string then (row_style_of "#fff8b3", "Skipped")
  else (row_style_of "#ccffcc", "Rebooted").

Definition row_status (callstate : string) : string := snd (row_class callstate).

Definition html_head : string :=
  "
    <html><body>
    <h3>IP Phone Reboot Status Report</h3>
    <table border=" ++ dq ++ "1" ++ dq ++ " cellspacing=" ++ dq ++ "0" ++ dq
  ++ " cellpadding=" ++ dq ++ "5" ++ dq ++ " style=" ++ dq
  ++ "border-collapse: collapse; font-family: Arial;" ++ dq ++ ">
        <tr style=" ++ dq ++ "background-color:#f2f2f2;" ++ dq ++ ">
            <th>S.No</th><th>IP</th><th>Name</th><th>UpTime</th><th>CallState</th><th>Status</th>
        </tr>
    ".

Definition html_row (idx : Z) (e : log_entry) : string :=
  let '(ip, name, uptime, callstate) := e in
  let (style, status) := row_class callstate in
  "<tr" ++ style ++ "><td>" ++ str_of_Z idx ++ "</td><td>" ++ ip ++ "</td><td>" ++ name
  ++ "</td><td>" ++ uptime ++ "</td><td>" ++ callstate ++ "</td><td>" ++ status ++ "</td></tr>".

Fixpoint html_rows (idx : Z) (log_entries : list log_entry) : string :=
  match log_entries with
  | [] => EmptyString
  | e :: rest => html_row idx e ++ html_rows (idx + 1) rest
  end.

(** [build_html_report()], reading [log_entries]. *)
Definition build_html_report (log_entries : list log_entry) : string :=
  html_head ++ html_rows 1 log_entries ++ "</table></body></html>".

Definition SUBJECT_ERRORS : string := "IP Phone Reboot Report – Errors Found ⚠".
Definition SUBJECT_OK : string := "IP Phone Reboot Report – All OK ✔".

(** [get_email_subject()], reading [log_entries]. *)
Fixpoint get_email_subject (log_entries : list log_entry) : string :=
  match log_entries with
  | [] => SUBJECT_OK
  | (_, _, _, callstate) :: rest =>
      if existsb (String.eqb callstate) ["N/A"; "Unreachable"] then SUBJECT_ERRORS
      else get_email_subject rest
  end.

(** ** Sending the report *)

(** The body of the loop of [send_error_email], over the attempts still to
    make; [smtp attempt] is what the SMTP session of that attempt does. *)
Fixpoint send_attempts (smtp : Z -> outcome unit) (subject html : string)
    (retries delay : Z) (attempts : list Z) : M event unit :=
  match attempts with
  | [] => ret tt
  | attempt :: rest =>
      sent <- try_except
                (perform (ESmtp subject html) (smtp attempt) ;;;
                 write_log ("[SUCCESS] Email sent successfully on attempt " ++ str_of_Z attempt) ;;;
                 ret true)
                (fun e =>
                   write_log ("[ERROR] Email sending failed (attempt " ++ str_of_Z attempt
                              ++ "): " ++ exn_msg e) ;;;
                   (if attempt <? retries then
                      write_log ("[INFO] Retrying in " ++ str_of_Z (delay / 60) ++ " minutes...") ;;;
                      sleep delay
                    else ret tt) ;;;
                   ret false) ;;
      if sent : bool then ret tt
      else send_attempts smtp subject html retries delay rest
  end.

(** [send_error_email(retries, delay)] *)
Definition send_error_email (smtp : Z -> outcome unit) (log_entries : list log_entry)
    (retries delay : Z) : M event unit :=
  let html := build_html_report log_entries in
  let subject := get_email_subject log_entries in
  send_attempts smtp subject html retries delay (py_range 1 (retries + 1)).

(** ** Loading the device list *)

(** A row of [csv.DictReader]: the header's keys, each with the field of
    the row, or [None] where the row is too short. *)
Definition csv_row : Type := list (string * option string).

Fixpoint dict_get {V} (d : list (string * V)) (key : string) : option V :=
  match d with
  | [] => None
  | (k, v) :: rest => if (k =? key)%string then Some v else dict_get rest key
  end.

(** [row[key].strip()] *)
Definition row_field (row : csv_row) (key : string) : outcome string :=
  match dict_get row key with
  | None => Raise (mkExn KeyError key)
  | Some None => Raise (mkExn AttributeError "'NoneType' object has no attribute 'strip'")
  | Some (Some v) => Ok (strip v)
  end.

Definition lift {E A} (o : outcome A) : M E A := ([], o).

(** The dictionary built from one row. *)
Definition device_of_row (row : csv_row) : M event Device :=
  ip <- lift (row_field row "ip") ;;
  user <- lift (row_field row "user") ;;
  pass <- lift (row_field row "password") ;;
  name <- lift (row_field row "name") ;;
  ret (mkDevice ip user pass name).

(** The loop [for row in reader: devices.append(...)]; reading a row can
    itself fail. *)
Fixpoint read_rows (reader : list (outcome csv_row)) (devices : list Device)
  : M event (list Device) :=
  match reader with
  | [] => ret devices
  | next :: rest =>
      row <- lift next ;;
      device <- device_of_row row ;;
      read_rows rest (devices ++ [device])%list
  end.

(** [read_ipphones_from_csv(file_path)]; [file] is what opening the file
    and reading its rows gives. *)
Definition read_ipphones_from_csv (file : outcome (list (outcome csv_row)))
    (file_path : string) : M event (list Device) :=
  try_except
    (reader <- perform (EReadCsv file_path) file ;;
     read_rows reader [])
    (fun e =>
       write_log ("[ERROR] Failed to read devices.csv: " ++ exn_msg e) ;;;
       ret []).

(** ** The e-mail configuration *)

Record EmailConfig := mkEmailConfig {
  send_if_error : bool;
  sender : string;
  password : string;
  recipient : string;
  smtp_server : string;
  smtp_port : Z
}.

(** The root element of the configuration: its children, each with its
    text ([None] for an empty element). *)
Definition xml_root : Type := list (string * option string).

(** [root.find(name).text.strip()] *)
Definition find_text (root : xml_root) (name : string) : outcome string :=
  match dict_get root name with
  | None => Raise (mkExn AttributeError "'NoneType' object has no attribute 'text'")
  | Some None => Raise (mkExn AttributeError "'NoneType' object has no attribute 'strip'")
  | Some (Some t) => Ok (strip t)
  end.

(** [load_email_config(xml_path)]; [file] is what [ET.parse] gives.  The
    line of line 30, like the one of line 35, is printed with [print], not
    with [write_log]; printing it is taken to succeed. *)
Definition load_email_config (file : outcome xml_root) : M event (option EmailConfig) :=
  try_except
    (root <- lift file ;;
     flag <- lift (find_text root "send_if_error") ;;
     from <- lift (find_text root "sender") ;;
     pw <- lift (find_text root "password") ;;
     to <- lift (find_text root "recipient") ;;
     server <- lift (find_text root "smtp_server") ;;
     port_text <- lift (find_text root "smtp_port") ;;
     port <- lift (int_of_str port_text) ;;
     ret (Some (mkEmailConfig (lower flag =? "true")%string from pw to server port)))
    (fun e =>
       emit (EPrint ("[ERROR] Failed to read email_config.xml: " ++ exn_msg e)) ;;;
       ret None).

(** ** Saving the report *)

Record FileSystem := mkFileSystem {
  fs_logs_exists : bool;              (* os.path.exists("logs") *)
  fs_makedirs : outcome unit;         (* os.makedirs("logs") *)
  fs_sep : string;                    (* the separator of os.path.join *)
  fs_today : string;                  (* today's date, %Y-%m-%d *)
  fs_write : outcome unit             (* opening and writing the report file *)
}.

(** [save_daily_html_log()] *)
Definition save_daily_html_log (fs : FileSystem) (log_entries : list log_entry)
  : M event unit :=
  (if negb (fs_logs_exists fs) then perform (EMakedirs "logs") (fs_makedirs fs)
   else ret tt) ;;;
  let today := fs_today fs in
  let log_filename := "logs" ++ fs_sep fs ++ today ++ "_ipphone_report.html" in
  try_except
    (perform (EWriteFile log_filename (build_html_report log_entries)) (fs_write fs) ;;;
     write_log ("[INFO] Daily HTML log saved to " ++ log_filename))
    (fun e => write_log ("[ERROR] Could not save daily HTML log: " ++ exn_msg e)).

(** ** The thread pool and the main script *)

Inductive thread :=
| MainThread
| Worker (i : nat).

Definition tevent : Type := thread * event.

Definition in_thread {A} (th : thread) (m : M event A) : M tevent A :=
  (map (pair th) (fst m), snd m).

(** The head of the [i]-th trace, and the traces without it. *)
Fixpoint pick {A} (i : nat) (ts : list (list A)) : option (A * list (list A)) :=
  match ts, i with
  | [], _ => None
  | [] :: _, O => None
  | (x :: t) :: ts', O => Some (x, t :: ts')
  | t :: ts', S j =>
      match pick j ts' with
      | Some (x, ts'') => Some (x, t :: ts'')
      | None => None
      end
  end.

(** The threads' traces interleaved as the schedule says: each number of
    the schedule lets that thread perform its next operation; when the
    schedule is used up the threads finish one after the other. *)
Fixpoint schedule_merge {A} (schedule : list nat) (ts : list (list A)) : list A :=
  match schedule with
  | [] => concat ts
  | i :: schedule' =>
      match pick i ts with
      | Some (x, ts') => x :: schedule_merge schedule' ts'
      | None => schedule_merge schedule' ts
      end
  end.

(** The trace of the task of device number [i]. *)
Fixpoint task_traces (envs : nat -> TaskEnv) (i : nat) (devices : list Device)
  : list (list tevent) :=
  match devices with
  | [] => []
  | device :: rest =>
      fst (in_thread (Worker i) (reboot_ipphone (envs i) device))
        :: task_traces envs (S i) rest
  end.

(** [ThreadPoolExecutor(max_workers=n)] refuses a pool without workers. *)
Definition ThreadPoolExecutor (max_workers : Z) : M tevent unit :=
  if max_workers <=? 0
  then lift (Raise (mkExn ValueError "max_workers must be greater than 0"))
  else ret tt.

(** [executor.map(reboot_ipphone, ip_phones)] and the end of the [with]
    block, which waits for every task.  The results of the tasks are never
    read, so an exception a task ends with is dropped. *)
Definition executor_map (schedule : list nat) (envs : nat -> TaskEnv)
    (ip_phones : list Device) : M tevent unit :=
  (schedule_merge schedule (task_traces envs 0 ip_phones), Ok tt).

(** [log_entries] once the operations of a trace have been performed. *)
Definition log_entries_of (t : list tevent) : list log_entry := appended (map snd t).

Record World := mkWorld {
  w_email_xml : outcome xml_root;
  w_csv : outcome (list (outcome csv_row));
  w_task : nat -> TaskEnv;
  w_schedule : list nat;
  w_fs : FileSystem;
  w_smtp : Z -> outcome unit
}.

(** How the process ends when no exception escapes: by reaching the end of
    the script or by [sys.exit(code)]. *)
Inductive ending :=
| Finished
| SysExit (code : Z).

(** Lines 222-235: the fleet pass, the report and the mail. *)
Definition fleet_pass (w : World) (EMAIL_CONFIG : EmailConfig) : M tevent ending :=
  ip_phones <- in_thread MainThread (read_ipphones_from_csv (w_csv w) "devices.csv") ;;
  in_thread MainThread (write_log "[INFO] Starting IP Phone reboot process...") ;;;
  ThreadPoolExecutor (Z.of_nat (length ip_phones)) ;;;
  let pool := executor_map (w_schedule w) (w_task w) ip_phones in
  pool ;;;
  let log_entries := log_entries_of (fst pool) in
  in_thread MainThread (write_log "[INFO] All IP Phone reboots attempted.") ;;;
  in_thread MainThread (save_daily_html_log (w_fs w) log_entries) ;;;
  (if send_if_error EMAIL_CONFIG
   then in_thread MainThread (send_error_email (w_smtp w) log_entries 2 300)
   else ret tt) ;;;
  ret Finished.

(** The whole script, from line 33. *)
Definition main (w : World) : M tevent ending :=
  cfg <- in_thread MainThread (load_email_config (w_email_xml w)) ;;
  match cfg with
  | None =>
      in_thread MainThread
        (emit (EPrint "[ERROR] Email configuration missing or invalid. Exiting.")) ;;;
      ret (SysExit 1)
  | Some EMAIL_CONFIG => fleet_pass w EMAIL_CONFIG
  end.

End Script.

(** ** Observing a trace *)

Definition is_get_to (url : string) (e : event) : bool :=
  match e with
  | EGet u => (u =? url)%string
  | _ => false
  end.

Definition is_get (e : event) : bool :=
  match e with
  | EGet _ => true
  | _ => false
  end.

Definition is_chrome (e : event) : bool :=
  match e with
  | EChrome => true
  | _ => false
  end.

Definition is_write_file (e : event) : bool :=
  match e with
  | EWriteFile _ _ => true
  | _ => false
  end.

(** The delivery attempts and the pauses of a trace. *)
Definition is_delivery (e : event) : bool :=
  match e with
  | ESmtp _ _ | ESleep _ => true
  | _ => false
  end.

Definition is_smtp (e : event) : bool :=
  match e with
  | ESmtp _ _ => true
  | _ => false
  end.

Definition is_print (e : event) : bool :=
  match e with
  | EPrint _ => true
  | _ => false
  end.

Definition is_sleep (e : event) : bool :=
  match e with
  | ESleep _ => true
  | _ => false
  end.

(** A row of the device file that cannot be read or lacks a field. *)
Definition row_ok `{PyStr} (next : outcome csv_row) : bool :=
  match next with
  | Raise _ => false
  | Ok row => is_ok (result (device_of_row row))
  end.

(** The device file is missing (it cannot be opened) or malformed (one of
    its rows is not a device). *)
Definition missing_or_malformed `{PyStr} (file : outcome (list (outcome csv_row))) : bool :=
  match file with
  | Raise _ => true
  | Ok reader => negb (forallb row_ok reader)
  end.

Definition count (p : event -> bool) (t : list event) : nat := length (filter p t).

Definition thread_eqb (a b : thread) : bool :=
  match a, b with
  | MainThread, MainThread => true
  | Worker i, Worker j => Nat.eqb i j
  | _, _ => false
  end.

(** What one thread did in a trace of the whole process, in order. *)
Definition thread_events (th : thread) (t : list tevent) : list event :=
  map snd (filter (fun te => thread_eqb (fst te) th) t).








(** Retrieval and parsing of the status page: navigation, page source,
    parser. *)
Definition fetched_page `{Bs4} (driver : WebDriver) (url : string) : outcome soup :=
  match drv_get driver url with
  | Raise e => Raise e
  | Ok _ =>
      match drv_page_source driver url with
      | Raise e => Raise e
      | Ok src => BeautifulSoup src
      end
  end.

(** [n] delivery attempts with a pause of [delay] between two of them. *)
Fixpoint attempts_with_pauses (subject html : string) (delay : Z) (n : nat) : list event :=
  match n with
  | O => []
  | S O => [ESmtp subject html]
  | S n' => ESmtp subject html :: ESleep delay :: attempts_with_pauses subject html delay n'
  end.

(** ** Executable stand-ins for the libraries

    An ASCII [str], two consoles and a small document tree with the
    searches the script uses, to run the script on concrete pages.  A
    string holds the UTF-8 bytes of its text. *)

Module Standin.

Definition is_space (c : ascii) : bool :=
  let n := nat_of_ascii c in
  (((9 <=? n) && (n <=? 13)) || ((28 <=? n) && (n <=? 32)))%nat.

Fixpoint lstrip (s : string) : string :=
  match s with
  | String c rest => if is_space c then lstrip rest else s
  | EmptyString => s
  end.

Fixpoint string_rev (s acc : string) : string :=
  match s with
  | EmptyString => acc
  | String c rest => string_rev rest (String c acc)
  end.

Definition ascii_strip (s : string) : string :=
  string_rev (lstrip (string_rev (lstrip s) EmptyString)) EmptyString.

Definition lower_char (c : ascii) : ascii :=
  let n := nat_of_ascii c in
  if ((65 <=? n) && (n <=? 90))%nat then ascii_of_nat (n + 32) else c.

Fixpoint ascii_lower (s : string) : string :=
  match s with
  | EmptyString => EmptyString
  | String c rest => String (lower_char c) (ascii_lower rest)
  end.

Definition decimal_int (s : string) : outcome Z :=
  match NilEmpty.int_of_string (ascii_strip s) with
  | Some n => Ok (Z.of_int n)
  | None => Raise (mkExn ValueError ("invalid literal for int() with base 10: " ++ s))
  end.

Definition ascii_str : PyStr :=
  {| strip := ascii_strip; lower := ascii_lower; int_of_str := decimal_int |}.

(** The characters cp1252 has for the bytes 0x80 to 0x9F; it has none for
    0x81, 0x8D, 0x8F, 0x90 and 0x9D. *)
Definition cp1252_high : list (nat * string) :=
  [(128, "€"); (130, "‚"); (131, "ƒ"); (132, "„"); (133, "…"); (134, "†");
   (135, "‡"); (136, "ˆ"); (137, "‰"); (138, "Š"); (139, "‹"); (140, "Œ");
   (142, "Ž"); (145, "‘"); (146, "’"); (147, "“"); (148, "”"); (149, "•");
   (150, "–"); (151, "—"); (152, "˜"); (153, "™"); (154, "š"); (155, "›");
   (156, "œ"); (158, "ž"); (159, "Ÿ")]%nat.

Fixpoint high_char (n : nat) (table : list (nat * string)) : option string :=
  match table with
  | [] => None
  | (k, c) :: rest => if (k =? n)%nat then Some c else high_char n rest
  end.

(** The character of a byte in cp1252, in UTF-8: ASCII as it is, the bytes
    from 0xA0 as Latin-1 (U+00A0 to U+00FF, two bytes each). *)
Definition cp1252_char (b : ascii) : option string :=
  let n := nat_of_ascii b in
  if (n <? 128)%nat then Some (String b EmptyString)
  else if (160 <=? n)%nat then
    Some (String (ascii_of_nat (if (n <? 192) then 194 else 195))
            (String (ascii_of_nat (if (n <? 192) then n else n - 64)) EmptyString))%nat
  else high_char n cp1252_high.

(** [bytes.decode("cp1252")] *)
Fixpoint cp1252_decode (bytes : string) : outcome string :=
  match bytes with
  | EmptyString => Ok EmptyString
  | String b rest =>
      match cp1252_char b with
      | None =>
          Raise (mkExn UnicodeDecodeError
                   "'charmap' codec can't decode byte: character maps to <undefined>")
      | Some c =>
          match cp1252_decode rest with
          | Ok text => Ok (c ++ text)
          | Raise e => Raise e
          end
      end
  end.

Definition is_high (c : string) : bool := existsb (fun kc => (snd kc =? c)%string) cp1252_high.

(** The text is made of characters cp1252 has. *)
Fixpoint in_cp1252 (text : string) : bool :=
  match text with
  | EmptyString => true
  | String b rest =>
      let n := nat_of_ascii b in
      if (n <? 128)%nat then in_cp1252 rest
      else
        match rest with
        | EmptyString => false
        | String b2 rest2 =>
            let n2 := nat_of_ascii b2 in
            if ((n =? 194) && (160 <=? n2) && (n2 <? 192))%nat then in_cp1252 rest2
            else if ((n =? 195) && (128 <=? n2) && (n2 <? 192))%nat then in_cp1252 rest2
            else if is_high (String b (String b2 EmptyString)) then in_cp1252 rest2
            else
              match rest2 with
              | EmptyString => false
              | String b3 rest3 =>
                  is_high (String b (String b2 (String b3 EmptyString))) && in_cp1252 rest3
              end
        end
  end.

(** A terminal that prints every line, as a UTF-8 terminal does. *)
Definition terminal : Console :=
  {| console_print := fun _ => Ok tt; cp1252_of_utf8 := cp1252_decode |}.

(** A console whose encoding is cp1252. *)
Definition cp1252_console : Console :=
  {| console_print := fun line =>
       if in_cp1252 line then Ok tt
       else Raise (mkExn UnicodeEncodeError
                     "'charmap' codec can't encode character: character maps to <undefined>");
     cp1252_of_utf8 := cp1252_decode |}.

Inductive node :=
| Text (s : string)
| Elem (name : string) (classes : list string) (children : list node).

(** A tag is kept with the siblings that follow it. *)
Definition placed : Type := node * list node.

(** The nodes of a forest in document order. *)
Fixpoint walk (n : node) (following : list node) : list placed :=
  (n, following) ::
  match n with
  | Text _ => []
  | Elem _ _ children =>
      (fix inside (l : list node) : list placed :=
         match l with
         | [] => []
         | c :: rest => (walk c rest ++ inside rest)%list
         end) children
  end.

Fixpoint walk_forest (l : list node) : list placed :=
  match l with
  | [] => []
  | n :: rest => (walk n rest ++ walk_forest rest)%list
  end.

(** [.string]: the text of a tag whose only content is one string,
    directly or through single children. *)
Fixpoint node_string (n : node) : option string :=
  match n with
  | Text s => Some s
  | Elem _ _ [c] => node_string c
  | Elem _ _ _ => None
  end.

Fixpoint strings_of (n : node) : list string :=
  match n with
  | Text s => [s]
  | Elem _ _ children => flat_map strings_of children
  end.

Definition is_named (name : string) (n : node) : bool :=
  match n with
  | Elem nm _ _ => (nm =? name)%string
  | Text _ => false
  end.

Definition is_td_with (s : string) (p : placed) : bool :=
  is_named "td" (fst p) &&
  match node_string (fst p) with
  | Some s' => (s' =? s)%string
  | None => false
  end.

Definition is_title_div (p : placed) : bool :=
  match fst p with
  | Elem nm classes _ => (nm =? "div")%string && existsb (String.eqb "title") classes
  | Text _ => false
  end.

Definition children_of (n : node) : list node :=
  match n with
  | Elem _ _ children => children
  | Text _ => []
  end.

Fixpoint next_named (name : string) (following : list node) : option placed :=
  match following with
  | [] => None
  | n :: rest => if is_named name n then Some (n, rest) else next_named name rest
  end.

Definition nonempty (s : string) : bool :=
  match s with EmptyString => false | _ => true end.

(** The documents the stand-in parser knows, by their source text; any
    other text is a page it fails on. *)
Definition dom_bs4 (pages : list (string * list node)) : Bs4 :=
  {| soup := list node;
     tag := placed;
     BeautifulSoup := fun src =>
       match dict_get pages src with
       | Some doc => Ok doc
       | None => Raise (mkExn RuntimeError "unparsable page")
       end;
     soup_find_td := fun doc s => find (is_td_with s) (walk_forest doc);
     soup_find_all_div_title := fun doc => filter is_title_div (walk_forest doc);
     tag_find_td := fun t s => find (is_td_with s) (walk_forest (children_of (fst t)));
     find_next_sibling := fun t name => next_named name (snd t);
     get_text_strip := fun t =>
       String.concat EmptyString (filter nonempty (map ascii_strip (strings_of (fst t))));
     tag_text := fun t => String.concat EmptyString (strings_of (fst t)) |}.

(** A status page with both fields, one without the UpTime row, and one
    without the Service Status section. *)
Definition row2 (label value : string) : node :=
  Elem "tr" [] [Elem "td" [] [Text label]; Elem "td" [] [Text value]].

Definition status_page (uptime callstate : option string) : list node :=
  [Elem "html" []
     [Elem "body" []
        ([Elem "div" ["title"] [Text " Product Information "];
          Elem "table" []
            (match uptime with
             | Some u => [row2 "UpTime" u]
             | None => [row2 "Model" "Edge B20"]
             end)] ++
         match callstate with
         | Some c =>
             [Elem "div" ["title"] [Text "Line 1 Service Status"];
              Elem "table" [] [row2 "Status" "Registered"; row2 "CallState" c]]
         | None => []
         end)%list]].

(** A page without the UpTime row and with two lines: the section of the
    first line has no CallState row, the section of the second has. *)
Definition two_lines_page : list node :=
  [Elem "html" []
     [Elem "body" []
        [Elem "div" ["title"] [Text " Product Information "];
         Elem "table" [] [row2 "Model" "Edge B20"];
         Elem "div" ["title"] [Text "Line 1 Service Status"];
         Elem "table" [] [row2 "Status" "Registered"];
         Elem "div" ["title"] [Text "Line 2 Service Status"];
         Elem "table" [] [row2 "Status" "Registered"; row2 "CallState" "0 Active Calls"]]]].

Definition pages : list (string * list node) :=
  [("idle", status_page (Some " 3 days 01:02:03 ") (Some "0 Active Calls"));
   ("busy", status_page (Some "1 day") (Some "2 Active Calls"));
   ("odd", status_page (Some "1 day") (Some "Unreachable"));
   ("no-uptime", status_page None (Some "0 Active Calls"));
   ("no-callstate", status_page (Some "5 days") None);
   ("two-lines", two_lines_page)].

Definition bs4 : Bs4 := dom_bs4 pages.

(** A browser showing a page of [pages] at every address, with the chosen
    answers to navigation. *)
Definition browser (page : string) (get : string -> outcome unit) : WebDriver :=
  mkDriver get (fun _ => Ok page) (Ok tt).

Definition always_ok : string -> outcome unit := fun _ => Ok tt.

Definition fails_on (bad : string) : string -> outcome unit :=
  fun url => if (url =? bad)%string
             then Raise (mkExn WebDriverException "net::ERR_CONNECTION_RESET")
             else Ok tt.

Definition lobby : Device := mkDevice "10.0.0.5" "admin" "secret" "Lobby".

Definition timed_out : outcome unit := Raise (mkExn RuntimeError "ping timed out").

Definition no_chrome : outcome WebDriver :=
  Raise (mkExn WebDriverException "chromedriver not found").

Definition reachable_with (page : string) (get : string -> outcome unit) : TaskEnv :=
  mkTaskEnv (Ok tt) (Ok (browser page get)).

Definition fleet_of (env : TaskEnv) : nat -> TaskEnv := fun _ => env.

Definition lobby_reboot_url : string := reboot_url "10.0.0.5" "admin" "secret".

Definition refusing_smtp : Z -> outcome unit :=
  fun _ => Raise (mkExn SMTPException "connection refused").

Definition config_xml : xml_root :=
  [("send_if_error", Some " True "); ("sender", Some "bot@example.org");
   ("password", Some "pw"); ("recipient", Some "ops@example.org");
   ("smtp_server", Some "smtp.example.org"); ("smtp_port", Some "587")].

Definition config : EmailConfig :=
  mkEmailConfig true "bot@example.org" "pw" "ops@example.org" "smtp.example.org" 587.

Definition disk : FileSystem := mkFileSystem false (Ok tt) "/" "2024-05-01" (Ok tt).

(** A world without [devices.csv], and one whose second row is short. *)
Definition world_with (file : outcome (list (outcome csv_row))) : World :=
  mkWorld (Ok config_xml) file (fleet_of (reachable_with "idle" always_ok)) [] disk
          refusing_smtp.

Definition no_device_file : outcome (list (outcome csv_row)) :=
  Raise (mkExn OSError "[Errno 2] No such file or directory: 'devices.csv'").

Definition short_row_file : outcome (list (outcome csv_row)) :=
  Ok [Ok [("ip", Some "10.0.0.5"); ("user", Some "admin"); ("password", Some "secret");
          ("name", Some "Lobby")];
      Ok [("ip", Some "10.0.0.6"); ("user", Some "admin"); ("password", None);
          ("name", None)]].

(** What the worker of the Lobby did in a run of the pool on that one
    phone, on the terminal. *)
Definition run_of (env : TaskEnv) (schedule : list nat) : list event :=
  thread_events (Worker 0)
    (trace (@executor_map ascii_str bs4 terminal schedule (fleet_of env) [lobby])).

End Standin.

(** ** Log lines and pieces of traces named in the properties *)

Definition read_error_text (ip name : string) (e : exn) : string :=
  "[ERROR] Error reading DI_S_.xml from " ++ ip ++ " (" ++ name ++ "): " ++ exn_msg e.

Definition read_info_text (ip name uptime callstate : string) : string :=
  "[INFO] " ++ ip ++ " (" ++ name ++ ") - UpTime: " ++ uptime ++ ", CallState: " ++ callstate.

Definition unreachable_text (device : Device) : string :=
  "[ERROR] " ++ d_ip device ++ " (" ++ d_name device
  ++ ") is not reachable (ping failed). Skipping reboot.".

Definition skipped_text (device : Device) (callstate : string) : string :=
  "[SKIPPED] Reboot for " ++ d_ip device ++ " (" ++ d_name device
  ++ ") - CallState not idle: " ++ callstate.

Definition success_text (device : Device) : string :=
  "[SUCCESS] Reboot triggered for " ++ d_ip device ++ " (" ++ d_name device ++ ")".

Definition reboot_error_text (device : Device) (e : exn) : string :=
  "[ERROR] Error rebooting " ++ d_ip device ++ " (" ++ d_name device ++ "): " ++ exn_msg e.

(** [write_log(message)] returns to its caller: the console printed the
    line, or rejected it and printed the recoded one. *)
Definition logged `{Console} (message : string) : bool :=
  is_ok (result (write_log message)).

(** The console prints every line it is given, as a UTF-8 terminal does. *)
Definition prints_every_line `{Console} : Prop :=
  forall line, console_print line = Ok tt.

(** The operations [before], then [write_log(message)], then the value [a]
    when the line was logged. *)
Definition log_then `{Console} {A} (before : list event) (message : string) (a : A)
  : M event A :=
  ((before ++ trace (write_log message))%list,
   match result (write_log message) with
   | Ok _ => Ok a
   | Raise e => Raise e
   end).

(** A computation ends with an exception of [write_log] only. *)
Definition raises_from_log `{Console} {A} (m : M event A) : Prop :=
  forall e, result m = Raise e -> exists message, result (write_log message) = Raise e.

(** A computation of the script that opens no SMTP session. *)
Definition smtp_free {A} (m : M tevent A) : Prop :=
  filter is_smtp (map snd (trace m)) = [].

(** Lines 129-143 of [reboot_ipphone]: the decision, the reboot request and
    the closing of the browser. *)
Definition decide_and_quit `{Console} (driver : WebDriver) (device : Device)
    (callstate : string) : M event unit :=
  try_finally
    (try_except
       (if negb (callstate =? IDLE)%string then write_log (skipped_text device callstate)
        else
          let url := reboot_url (d_ip device) (d_user device) (d_pass device) in
          perform (EGet url) (drv_get driver url) ;;;
          write_log (success_text device))
       (fun e => write_log (reboot_error_text device e)))
    (try_except (perform EQuit (drv_quit driver)) (fun _ => ret tt)).

Definition reboot_error_line (device : Device) (e : exn) : event :=
  EPrint (reboot_error_text device e).

(** Every trace of the list belongs to one worker, numbered from [k]. *)
Fixpoint owned (k : nat) (ts : list (list tevent)) : Prop :=
  match ts with
  | [] => True
  | t :: ts' => Forall (fun te => fst te = Worker k) t /\ owned (S k) ts'
  end.

Definition send_failed_text (attempt : Z) (e : exn) : string :=
  "[ERROR] Email sending failed (attempt " ++ str_of_Z attempt ++ "): " ++ exn_msg e.

Definition send_failed_line (attempt : Z) (e : exn) : event :=
  EPrint (send_failed_text attempt e).

Definition retry_text (delay : Z) : string :=
  "[INFO] Retrying in " ++ str_of_Z (delay / 60) ++ " minutes...".

Definition retry_line (delay : Z) : event := EPrint (retry_text delay).

Definition NO_WORKERS : exn := mkExn ValueError "max_workers must be greater than 0".

Definition is_error_state (callstate : string) : Prop :=
  callstate = "N/A" \/ callstate = "Unreachable".

Definition entry_of (e : event) : list log_entry :=
  match e with
  | EAppend entry => [entry]
  | _ => []
  end.

Definition is_quit (e : event) : bool :=
  match e with
  | EQuit => true
  | _ => false
  end.

(** The operations a device task can perform. *)
Definition task_event (e : event) : bool :=
  match e with
  | EPing _ | EChrome | EGet _ | EPageSource _ | EQuit | ESleep _ | EPrint _ | EAppend _ => true
  | _ => false
  end.

Definition CONFIG_FIELDS : list string :=
  ["send_if_error"; "sender"; "password"; "recipient"; "smtp_server"; "smtp_port"].

(** The configuration file parses, each of the six elements is there with
    a text, and the text of the port is an integer. *)
Definition config_valid `{PyStr} (file : outcome xml_root) : bool :=
  match file with
  | Raise _ => false
  | Ok root =>
      forallb (fun name => is_ok (find_text root name)) CONFIG_FIELDS
      && match find_text root "smtp_port" with
         | Ok text => is_ok (int_of_str text)
         | Raise _ => false
         end
  end.


Definition csv_error_text (e : exn) : string :=
  "[ERROR] Failed to read devices.csv: " ++ exn_msg e.

Definition CSV_ERROR (e : exn) : event := EPrint (csv_error_text e).

(** The path of the report of the day. *)
Definition report_path (fs : FileSystem) : string :=
  "logs" ++ fs_sep fs ++ fs_today fs ++ "_ipphone_report.html".

Definition save_error_text (e : exn) : string :=
  "[ERROR] Could not save daily HTML log: " ++ exn_msg e.

(** The report directory is there or can be made. *)
Definition logs_dir_ready (fs : FileSystem) : bool :=
  fs_logs_exists fs || is_ok (fs_makedirs fs).

(** What save_daily_html_log does once the directory is there: the one
    write of the report, then the line that tells how it went. *)
Definition write_events (fs : FileSystem) (log_entries : list log_entry) : list event :=
  match fs_write fs with
  | Ok _ =>
      [EWriteFile (report_path fs) (build_html_report log_entries);
       EPrint ("[INFO] Daily HTML log saved to " ++ report_path fs)]
  | Raise e =>
      [EWriteFile (report_path fs) (build_html_report log_entries);
       EPrint ("[ERROR] Could not save daily HTML log: " ++ exn_msg e)]
  end.

(** The two lines main logs around the pool, and a trace of the main
    thread. *)
Definition STARTING : tevent :=
  (MainThread, EPrint "[INFO] Starting IP Phone reboot process...").

Definition ATTEMPTED : tevent :=
  (MainThread, EPrint "[INFO] All IP Phone reboots attempted.").

Definition on_main (t : list event) : list tevent := map (pair MainThread) t.

(** The task of a device records an entry: the device does not answer the
    ping, or its browser starts. *)
Definition records_entry (env : TaskEnv) : bool :=
  negb (is_ok (env_ping env)) || is_ok (env_chrome env).

(** The number of devices, numbered from [i], whose task records an entry. *)
Fixpoint recording (envs : nat -> TaskEnv) (i : nat) (devices : list Device) : nat :=
  match devices with
  | [] => 0
  | _ :: rest => (if records_entry (envs i) then 1 else 0) + recording envs (S i) rest
  end.

(** The number of devices, numbered from [i], whose task returns. *)
Fixpoint returning `{PyStr} `{Bs4} `{Console} (envs : nat -> TaskEnv) (i : nat)
    (devices : list Device) : nat :=
  match devices with
  | [] => 0
  | device :: rest =>
      (if is_ok (result (reboot_ipphone (envs i) device)) then 1 else 0)
      + returning envs (S i) rest
  end.

(** The row of the report for an entry at index [idx], with the colour and
    the label given: line 169. *)
Definition report_row (idx : Z) (ip name uptime callstate colour label : string) : string :=
  "<tr style=" ++ dq ++ "background-color: " ++ colour ++ ";" ++ dq ++ "><td>"
  ++ str_of_Z idx ++ "</td><td>" ++ ip ++ "</td><td>" ++ name ++ "</td><td>" ++ uptime
  ++ "</td><td>" ++ callstate ++ "</td><td>" ++ label ++ "</td></tr>".

(** The colour and the label of a call-state: lines 156-167. *)
Definition colour_and_label (callstate colour label : string) : Prop :=
  (callstate = "Unreachable" /\ colour = "#ff9999" /\ label = "Unreachable") \/
  (callstate = "N/A" /\ colour = "#ffcccc" /\ label = "Error") \/
  (callstate <> "Unreachable" /\ callstate <> "N/A" /\ callstate <> "0 Active Calls" /\
   colour = "#fff8b3" /\ label = "Skipped") \/
  (callstate = "0 Active Calls" /\ colour = "#ccffcc" /\ label = "Rebooted").

(** An entry of a device: its address and its name, with some status. *)
Definition entry_for (device : Device) (entry : log_entry) : Prop :=
  exists uptime callstate, entry = (d_ip device, d_name device, uptime, callstate).

(** ** More stand-ins: files, browsers and disks of further runs *)

Module Scenes.

Import Standin.

(** A device file with the Lobby alone, and a configuration without its
    port. *)
Definition lobby_row : outcome csv_row :=
  Ok [("ip", Some " 10.0.0.5"); ("user", Some "admin"); ("password", Some "secret");
      ("name", Some "Lobby ")].

Definition lobby_file : outcome (list (outcome csv_row)) := Ok [lobby_row].

Definition short_row : outcome csv_row :=
  Ok [("ip", Some "10.0.0.6"); ("user", Some "admin"); ("password", None);
      ("name", None)].





(** A browser that shows a busy phone and cannot be closed. *)
Definition stuck_browser : WebDriver :=
  mkDriver always_ok (fun _ => Ok "busy")
           (Raise (mkExn WebDriverException "chrome not reachable")).

Definition full_disk : FileSystem :=
  mkFileSystem true (Ok tt) "/" "2024-05-01"
               (Raise (mkExn OSError "[Errno 28] No space left on device")).

Definition no_logs_dir : FileSystem :=
  mkFileSystem false (Raise (mkExn OSError "[Errno 13] Permission denied: 'logs'"))
               "/" "2024-05-01" (Ok tt).

Definition second_try_smtp : Z -> outcome unit :=
  fun attempt => if attempt =? 1 then Raise (mkExn SMTPException "connection refused")
                 else Ok tt.

Definition quiet_config : EmailConfig :=
  mkEmailConfig false "bot@example.org" "pw" "ops@example.org" "smtp.example.org" 587.

(** The Lobby alone, idle, with the chosen configuration file, disk and
    mail server. *)
Definition world_on (xml : outcome xml_root) (fs : FileSystem) (smtp : Z -> outcome unit)
  : World :=
  mkWorld xml lobby_file (fleet_of (reachable_with "idle" always_ok)) [] fs smtp.

(** A phone whose name cp1252 cannot encode, and which does not answer
    the ping. *)
Definition kane : Device := mkDevice "10.0.0.7" "admin" "secret" "Kāne".

Definition silent : TaskEnv := mkTaskEnv timed_out no_chrome.

Definition idle_entry : log_entry := ("10.0.0.5", "Lobby", "3 days 01:02:03", "0 Active Calls").

Definition down_entry : log_entry := ("10.0.0.6", "Desk1", "N/A", "Unreachable").

End Scenes.

(** * Properties *)

Unset Implicit Arguments.

Section Properties.

Context {pystr : PyStr} {bs4 : Bs4} {console : Console}.

(** ** Strings and addresses *)

Lemma string_app_inv_head (p a b : string) : p ++ a = p ++ b -> a = b.
Proof.
  induction p as [|c p IH]; simpl; intros Heq.
  - exact Heq.
  - injection Heq as Heq. now apply IH.
Qed.

Lemma status_url_not_reboot_url (ip user passwd : string) :
  status_url ip user passwd <> reboot_url ip user passwd.
Proof.
  unfold status_url, reboot_url. intros Heq.
  repeat (apply string_app_inv_head in Heq).
  discriminate Heq.
Qed.

Lemma is_get_to_status_url (ip user passwd : string) :
  is_get_to (reboot_url ip user passwd) (EGet (status_url ip user passwd)) = false.
Proof.
  unfold is_get_to. apply String.eqb_neq, status_url_not_reboot_url.
Qed.

(** ** The classification of a row *)

Lemma row_status_unreachable : row_status UNREACHABLE = "Unreachable".
Proof. reflexivity. Qed.

Lemma row_status_na : row_status NA = "Error".
Proof. reflexivity. Qed.

Lemma row_status_idle : row_status IDLE = "Rebooted".
Proof. reflexivity. Qed.

Lemma row_status_other (callstate : string) :
  callstate <> UNREACHABLE -> callstate <> NA -> callstate <> IDLE ->
  row_status callstate = "Skipped".
Proof.
  intros Hu Hn Hi. unfold row_status, row_class.
  apply String.eqb_neq in Hu, Hn, Hi.
  unfold UNREACHABLE, NA, IDLE in *. now rewrite Hu, Hn, Hi.
Qed.

(** ** Events and filters *)

Lemma prints_filtered (p : event -> bool) (t : list event) :
  (forall line, p (EPrint line) = false) ->
  forallb is_print t = true ->
  filter p t = [].
Proof.
  intros Hp. induction t as [|[] t IH]; cbn; try discriminate; [reflexivity|].
  intros Ht. rewrite Hp. now apply IH.
Qed.

Lemma prints_not_appended (t : list event) : forallb is_print t = true -> appended t = [].
Proof. induction t as [|[] t IH]; cbn; try discriminate; auto. Qed.

Lemma prints_task_events (t : list event) :
  forallb is_print t = true -> forallb task_event t = true.
Proof. induction t as [|[] t IH]; cbn; try discriminate; auto. Qed.

Lemma appended_app (t1 t2 : list event) :
  appended (t1 ++ t2) = (appended t1 ++ appended t2)%list.
Proof.
  induction t1 as [|e t1 IH]; [reflexivity|].
  destruct e; cbn; try exact IH. now rewrite IH.
Qed.

(** ** The log *)

Lemma write_log_printed (message : string) :
  console_print message = Ok tt -> write_log message = ([EPrint message], Ok tt).
Proof. intros Hprint. unfold write_log, perform. now rewrite Hprint. Qed.

(** Whatever the console does, [write_log] prints and does nothing else. *)
Lemma write_log_only_prints (message : string) :
  forallb is_print (trace (write_log message)) = true.
Proof.
  unfold write_log, try_except_when, perform, bind.
  destruct (console_print message) as [u|e]; [reflexivity|].
  destruct (is_encode_error e); [|reflexivity].
  destruct (cp1252_of_utf8 message) as [text|e']; reflexivity.
Qed.

Lemma write_log_first (message : string) :
  exists rest, trace (write_log message) = EPrint message :: rest.
Proof.
  unfold write_log, try_except_when, perform, bind.
  destruct (console_print message) as [u|e]; [now exists []|].
  destruct (is_encode_error e); [|now exists []].
  destruct (cp1252_of_utf8 message) as [text|e']; cbn; eauto.
Qed.

Lemma write_log_filtered (p : event -> bool) (message : string) :
  (forall line, p (EPrint line) = false) ->
  filter p (trace (write_log message)) = [].
Proof. intros Hp. apply prints_filtered, write_log_only_prints. exact Hp. Qed.

Lemma write_log_not_appended (message : string) :
  appended (trace (write_log message)) = [].
Proof. apply prints_not_appended, write_log_only_prints. Qed.

Lemma logged_result (message : string) :
  logged message = true -> result (write_log message) = Ok tt.
Proof.
  unfold logged. destruct (result (write_log message)) as [[]|e]; [reflexivity|discriminate].
Qed.

Lemma log_then_trace {A} (before : list event) (message : string) (a : A) :
  trace (log_then before message a) = (before ++ trace (write_log message))%list.
Proof. reflexivity. Qed.


Lemma log_then_raises {A} (before : list event) (message : string) (a : A) (e : exn) :
  result (write_log message) = Raise e -> result (log_then before message a) = Raise e.
Proof. intros Hlog. unfold log_then, result in *. cbn [snd]. now rewrite Hlog. Qed.

Lemma log_then_result {A} (before : list event) (message : string) (a : A) :
  result (log_then before message a) = Ok a \/
  exists e, result (write_log message) = Raise e /\ result (log_then before message a) = Raise e.
Proof.
  unfold log_then, result. cbn [snd].
  destruct (snd (write_log message)) as [u|e]; [now left|right; now exists e].
Qed.

(** ** The status extractor, case by case *)

Lemma get_ipphone_status_eq (driver : WebDriver) (ip user passwd name : string) :
  let url := status_url ip user passwd in
  get_ipphone_status driver ip user passwd name =
  match drv_get driver url with
  | Raise e => log_then [EGet url] (read_error_text ip name e) (NA, NA)
  | Ok _ =>
      match drv_page_source driver url with
      | Raise e =>
          log_then [EGet url; ESleep 2; EPageSource url] (read_error_text ip name e) (NA, NA)
      | Ok src =>
          match BeautifulSoup src with
          | Raise e =>
              log_then [EGet url; ESleep 2; EPageSource url] (read_error_text ip name e)
                       (NA, NA)
          | Ok s =>
              let uptime := parse_uptime s NA in
              let callstate := parse_callstate (soup_find_all_div_title s) NA in
              log_then [EGet url; ESleep 2; EPageSource url]
                       (read_info_text ip name uptime callstate) (uptime, callstate)
          end
      end
  end.
Proof.
  intros url. unfold get_ipphone_status, log_then, read_error_text, read_info_text,
    trace, result. fold url.
  destruct (drv_get driver url) as [u|e].
  - destruct (drv_page_source driver url) as [src|e].
    + unfold try_except, bind, perform, sleep, ret, emit.
      cbn [Z.ltb Z.compare app fst snd].
      destruct (BeautifulSoup src) as [s|e].
      * cbn [app]. destruct (write_log _) as [t [[]|e]]; cbn; rewrite ?app_nil_r; reflexivity.
      * cbn [app]. destruct (write_log _) as [t [[]|e']]; cbn; rewrite ?app_nil_r; reflexivity.
    + unfold try_except, bind, perform, sleep, ret, emit.
      cbn [Z.ltb Z.compare app fst snd].
      destruct (write_log _) as [t [[]|e']]; cbn; rewrite ?app_nil_r; reflexivity.
  - unfold try_except, bind, perform, sleep, ret, emit. cbn [app fst snd].
    destruct (write_log _) as [t [[]|e']]; cbn; rewrite ?app_nil_r; reflexivity.
Qed.

(** Whatever happens, the extractor navigates to the status address only,
    records nothing and does not close the browser. *)
Lemma status_trace_kind (driver : WebDriver) (ip user passwd name : string) :
  let call := get_ipphone_status driver ip user passwd name in
  appended (trace call) = [] /\
  filter is_get (trace call) = [EGet (status_url ip user passwd)] /\
  filter is_quit (trace call) = [] /\
  forallb task_event (trace call) = true.
Proof.
  intros call. subst call. rewrite get_ipphone_status_eq.
  destruct (drv_get driver _) as [u|e];
    [destruct (drv_page_source driver _) as [src|e];
     [destruct (BeautifulSoup src) as [s|e]|]|];
    rewrite log_then_trace, appended_app, !filter_app, forallb_app,
      write_log_not_appended, !write_log_filtered, (prints_task_events _ (write_log_only_prints _))
      by reflexivity;
    repeat split.
Qed.

(** The extractor returns a pair, or ends with the exception of its log
    line. *)
Lemma status_result (driver : WebDriver) (ip user passwd name : string) :
  let call := get_ipphone_status driver ip user passwd name in
  (exists uptime callstate, result call = Ok (uptime, callstate)) \/
  (exists message e, result (write_log message) = Raise e /\ result call = Raise e).
Proof.
  intros call. subst call. rewrite get_ipphone_status_eq.
  destruct (drv_get driver _) as [u|e];
    [destruct (drv_page_source driver _) as [src|e];
     [destruct (BeautifulSoup src) as [s|e]|]|];
    cbv zeta;
    match goal with
    | |- context [log_then ?b ?m ?a] =>
        destruct (log_then_result b m a) as [Hok|(e' & Hlog & Hraise)];
          [left; rewrite Hok; eauto|right; rewrite Hraise; eauto]
    end.
Qed.




(** ** The decision and the closing of the browser *)

Lemma quit_always (driver : WebDriver) :
  try_except (perform EQuit (drv_quit driver)) (fun _ => ret tt) = ([EQuit], Ok tt).
Proof. unfold try_except, perform. destruct (drv_quit driver) as [[]|e]; reflexivity. Qed.

Ltac log_cases message t r H :=
  pose proof (write_log_only_prints message) as H;
  destruct (write_log message) as [t r] eqn:?;
  unfold trace in H; cbn [fst] in H.

(** The block of lines 129-143 ends by closing the browser, once; before
    that it only logs, except for the reboot request of an idle phone. *)
Lemma decide_trace_kind (driver : WebDriver) (device : Device) (callstate : string) :
  exists t,
    trace (decide_and_quit driver device callstate) = (t ++ [EQuit])%list /\
    filter is_quit t = [] /\
    appended t = [] /\
    forallb task_event t = true /\
    filter is_get t =
    if (callstate =? IDLE)%string
    then [EGet (reboot_url (d_ip device) (d_user device) (d_pass device))] else [].
Proof.
  unfold decide_and_quit. rewrite quit_always. cbv zeta.
  destruct (callstate =? IDLE)%string; cbn [negb].
  - destruct (drv_get driver _) as [u|e]; unfold perform, bind.
    + log_cases (success_text device) t1 r1 H1. destruct r1 as [[]|e1].
      * exists (EGet (reboot_url (d_ip device) (d_user device) (d_pass device)) :: t1).
        cbn. rewrite (prints_filtered is_quit t1), (prints_filtered is_get t1),
          (prints_not_appended t1), (prints_task_events t1) by (assumption || reflexivity).
        repeat split.
      * cbn [try_except try_finally app].
        log_cases (reboot_error_text device e1) t2 r2 H2.
        exists (EGet (reboot_url (d_ip device) (d_user device) (d_pass device)) :: t1 ++ t2)%list.
        cbn. rewrite !filter_app, appended_app, forallb_app,
          (prints_filtered is_quit t1), (prints_filtered is_get t1),
          (prints_filtered is_quit t2), (prints_filtered is_get t2),
          (prints_not_appended t1), (prints_task_events t1),
          (prints_not_appended t2), (prints_task_events t2) by (assumption || reflexivity).
        destruct r2; cbn; rewrite <- ?app_assoc; repeat split.
    + cbn [try_except try_finally app].
      log_cases (reboot_error_text device e) t2 r2 H2.
      exists (EGet (reboot_url (d_ip device) (d_user device) (d_pass device)) :: t2).
      cbn. rewrite (prints_filtered is_quit t2), (prints_filtered is_get t2),
        (prints_not_appended t2), (prints_task_events t2) by (assumption || reflexivity).
      destruct r2; cbn; rewrite <- ?app_assoc; repeat split.
  - log_cases (skipped_text device callstate) t1 r1 H1. destruct r1 as [[]|e1].
    + exists t1. cbn.
      rewrite (prints_filtered is_quit t1), (prints_filtered is_get t1),
        (prints_not_appended t1), (prints_task_events t1) by (assumption || reflexivity).
      repeat split.
    + cbn [try_except try_finally app].
      log_cases (reboot_error_text device e1) t2 r2 H2.
      exists (t1 ++ t2)%list.
      cbn. rewrite !filter_app, appended_app, forallb_app,
        (prints_filtered is_quit t1), (prints_filtered is_get t1),
        (prints_filtered is_quit t2), (prints_filtered is_get t2),
        (prints_not_appended t1), (prints_task_events t1),
        (prints_not_appended t2), (prints_task_events t2) by (assumption || reflexivity).
      destruct r2; cbn; rewrite <- ?app_assoc; repeat split.
Qed.

(** An exception leaves the block only when a log line raised it. *)
Lemma decide_result (driver : WebDriver) (device : Device) (callstate : string) :
  raises_from_log (decide_and_quit driver device callstate).
Proof.
  unfold raises_from_log, decide_and_quit. rewrite quit_always. cbv zeta. intros e.
  assert (Hhandler : forall (t : list event) (e1 : exn),
             result (try_finally
                       (try_except (t, Raise e1)
                          (fun e0 => write_log (reboot_error_text device e0)))
                       ([EQuit], Ok tt)) = Raise e ->
             exists message, result (write_log message) = Raise e).
  { intros t e1. unfold try_except, try_finally, result.
    destruct (write_log (reboot_error_text device e1)) as [t2 [[]|e2]] eqn:H2; cbn [snd];
      intros H; [discriminate H|].
    injection H as <-. exists (reboot_error_text device e1). now rewrite H2. }
  destruct (callstate =? IDLE)%string; cbn [negb].
  - destruct (drv_get driver _) as [u|e0]; unfold perform, bind.
    + destruct (write_log (success_text device)) as [t1 [[]|e1]]; cbn [app].
      * unfold try_except, try_finally, result. cbn [snd]. intros H. discriminate H.
      * apply Hhandler.
    + apply Hhandler.
  - destruct (write_log (skipped_text device callstate)) as [t1 [[]|e1]].
    + unfold try_except, try_finally, result. cbn [snd]. intros H. discriminate H.
    + apply Hhandler.
Qed.

Lemma decide_skipped (driver : WebDriver) (device : Device) (callstate : string) :
  (callstate =? IDLE)%string = false ->
  logged (skipped_text device callstate) = true ->
  result (decide_and_quit driver device callstate) = Ok tt.
Proof.
  intros Hbusy Hlog. apply logged_result in Hlog.
  unfold decide_and_quit. rewrite quit_always, Hbusy. cbn [negb].
  destruct (write_log (skipped_text device callstate)) as [t1 r1].
  unfold result in Hlog. cbn [snd] in Hlog. subst r1. reflexivity.
Qed.

Lemma decide_reboot_failed (driver : WebDriver) (device : Device) (e : exn) :
  drv_get driver (reboot_url (d_ip device) (d_user device) (d_pass device)) = Raise e ->
  logged (reboot_error_text device e) = true ->
  result (decide_and_quit driver device IDLE) = Ok tt.
Proof.
  intros Hget Hlog. apply logged_result in Hlog.
  unfold decide_and_quit. rewrite quit_always, String.eqb_refl. cbv zeta. cbn [negb].
  rewrite Hget. unfold perform, bind, try_except.
  destruct (write_log (reboot_error_text device e)) as [t1 r1].
  unfold result in Hlog. cbn [snd] in Hlog. subst r1. reflexivity.
Qed.

(** ** The device task, case by case *)

Lemma reboot_ipphone_unreachable (env : TaskEnv) (device : Device) :
  is_ok (env_ping env) = false ->
  reboot_ipphone env device =
  log_then [EPing (d_ip device)] (unreachable_text device) tt ;;;
  emit (EAppend (d_ip device, d_name device, NA, UNREACHABLE)).
Proof.
  intros Hping. unfold reboot_ipphone, is_reachable, log_then, trace, result.
  destruct (env_ping env); [discriminate|].
  unfold try_except, perform, bind, ret, unreachable_text. cbn [negb app fst snd].
  destruct (write_log _) as [t [[]|e']]; reflexivity.
Qed.

Lemma reboot_ipphone_no_driver (env : TaskEnv) (device : Device) (e : exn) :
  is_ok (env_ping env) = true ->
  env_chrome env = Raise e ->
  reboot_ipphone env device = ([EPing (d_ip device); EChrome], Raise e).
Proof.
  intros Hping Hchrome. unfold reboot_ipphone, is_reachable, create_driver.
  destruct (env_ping env); [|discriminate]. rewrite Hchrome. reflexivity.
Qed.

Lemma reboot_ipphone_status_raises (env : TaskEnv) (device : Device) (driver : WebDriver)
    (t : list event) (e : exn) :
  is_ok (env_ping env) = true ->
  env_chrome env = Ok driver ->
  get_ipphone_status driver (d_ip device) (d_user device) (d_pass device) (d_name device)
    = (t, Raise e) ->
  reboot_ipphone env device = (([EPing (d_ip device); EChrome] ++ t)%list, Raise e).
Proof.
  intros Hping Hchrome Hstatus.
  unfold reboot_ipphone, is_reachable, create_driver.
  destruct (env_ping env); [|discriminate]. rewrite Hchrome.
  cbn [perform bind try_except ret negb app].
  rewrite Hstatus. reflexivity.
Qed.

Lemma reboot_ipphone_reachable (env : TaskEnv) (device : Device) (driver : WebDriver)
    (t : list event) (uptime callstate : string) :
  is_ok (env_ping env) = true ->
  env_chrome env = Ok driver ->
  get_ipphone_status driver (d_ip device) (d_user device) (d_pass device) (d_name device)
    = (t, Ok (uptime, callstate)) ->
  reboot_ipphone env device =
  (([EPing (d_ip device); EChrome] ++ t
    ++ [EAppend (d_ip device, d_name device, uptime, callstate)]
    ++ trace (decide_and_quit driver device callstate))%list,
   result (decide_and_quit driver device callstate)).
Proof.
  intros Hping Hchrome Hstatus.
  unfold reboot_ipphone, is_reachable, create_driver.
  destruct (env_ping env); [|discriminate]. rewrite Hchrome.
  cbn [perform bind try_except ret negb app].
  rewrite Hstatus. cbn [bind emit app].
  fold (skipped_text device callstate) (success_text device).
  change (try_finally _ _) with (decide_and_quit driver device callstate).
  destruct (decide_and_quit driver device callstate) as [td rd]. reflexivity.
Qed.

(** ** Threads in the trace of the pool *)

Lemma thread_events_app (th : thread) (t1 t2 : list tevent) :
  thread_events th (t1 ++ t2) = (thread_events th t1 ++ thread_events th t2)%list.
Proof. unfold thread_events. now rewrite filter_app, map_app. Qed.

Lemma thread_eqb_refl (th : thread) : thread_eqb th th = true.
Proof. destruct th; [reflexivity|apply Nat.eqb_refl]. Qed.

Lemma thread_events_own (th : thread) (t : list event) :
  thread_events th (map (pair th) t) = t.
Proof.
  unfold thread_events. induction t as [|e t IH]; [reflexivity|].
  cbn. rewrite thread_eqb_refl. cbn. now rewrite IH.
Qed.

Lemma thread_events_foreign (th th' : thread) (t : list tevent) :
  Forall (fun te => fst te = th') t -> thread_eqb th' th = false ->
  thread_events th t = [].
Proof.
  intros Hall Hneq. unfold thread_events.
  induction Hall as [|te t Hte _ IH]; [reflexivity|].
  cbn. rewrite Hte, Hneq. exact IH.
Qed.

Lemma thread_events_earlier (i k : nat) (ts : list (list tevent)) :
  owned k ts -> (i < k)%nat -> thread_events (Worker i) (concat ts) = [].
Proof.
  revert k. induction ts as [|t ts IH]; intros k Hown Hlt; [reflexivity|].
  destruct Hown as [Ht Hts]. cbn [concat]. rewrite thread_events_app.
  rewrite thread_events_foreign with (th':=Worker k); trivial.
  - apply (IH (S k)); [assumption|lia].
  - unfold thread_eqb. apply Nat.eqb_neq. lia.
Qed.

Lemma pick_owned (th : thread) (ts : list (list tevent)) :
  forall k j x ts',
    owned k ts -> pick j ts = Some (x, ts') ->
    owned k ts' /\ fst x = Worker (k + j) /\
    thread_events th (concat ts)
    = (thread_events th [x] ++ thread_events th (concat ts'))%list.
Proof.
  induction ts as [|t ts IH]; intros k j x ts' Hown Hpick; [destruct j; discriminate|].
  destruct Hown as [Ht Hts]. destruct j as [|j].
  - destruct t as [|x0 t]; [discriminate|].
    cbn in Hpick. injection Hpick as -> <-.
    inversion Ht as [|? ? Hx Ht']; subst.
    repeat split; trivial.
    + now rewrite Nat.add_0_r.
    + cbn [concat]. now rewrite <- thread_events_app.
  - cbn in Hpick.
    assert (Hrest : exists ts0, pick j ts = Some (x, ts0) /\ ts' = t :: ts0).
    { destruct t; destruct (pick j ts) as [[y ts0]|]; try discriminate;
        injection Hpick as -> <-; eauto. }
    destruct Hrest as (ts0 & Hpick0 & ->).
    destruct (IH (S k) j x ts0 Hts Hpick0) as (Hown0 & Hx & Hev).
    repeat split; trivial.
    + rewrite Hx. f_equal. lia.
    + cbn [concat]. rewrite !thread_events_app, Hev.
      destruct (thread_eqb (Worker k) th) eqn:Hk.
      * assert (Hnil : thread_events th [x] = []).
        { apply thread_events_foreign with (th':=Worker (S k + j)).
          - now repeat constructor.
          - destruct th as [|i]; [reflexivity|]. unfold thread_eqb in Hk |- *.
            apply Nat.eqb_eq in Hk. apply Nat.eqb_neq. lia. }
        rewrite Hnil. reflexivity.
      * rewrite (thread_events_foreign _ _ _ Ht Hk). reflexivity.
Qed.

Lemma thread_events_merge (th : thread) (schedule : list nat) :
  forall k ts, owned k ts ->
    thread_events th (schedule_merge schedule ts) = thread_events th (concat ts).
Proof.
  induction schedule as [|i schedule IH]; intros k ts Hown; [reflexivity|].
  cbn [schedule_merge]. destruct (pick i ts) as [[x ts']|] eqn:Hpick.
  - destruct (pick_owned th _ _ _ _ _ Hown Hpick) as (Hown' & _ & Hev).
    rewrite Hev. change (x :: schedule_merge schedule ts')
      with ([x] ++ schedule_merge schedule ts')%list.
    rewrite thread_events_app. f_equal. now apply (IH k).
  - now apply (IH k).
Qed.

Lemma task_traces_owned (envs : nat -> TaskEnv) (devices : list Device) :
  forall k, owned k (task_traces envs k devices).
Proof.
  induction devices as [|device rest IH]; intros k; [exact I|].
  split; [|apply IH].
  cbn. apply Forall_forall. intros te Hin.
  apply in_map_iff in Hin. destruct Hin as (e & <- & _). reflexivity.
Qed.

Lemma task_traces_thread (envs : nat -> TaskEnv) (devices : list Device) :
  forall k i device,
    nth_error devices i = Some device ->
    thread_events (Worker (k + i)) (concat (task_traces envs k devices))
    = trace (reboot_ipphone (envs (k + i)%nat) device).
Proof.
  induction devices as [|d rest IH]; intros k i device Hnth.
  - destruct i; discriminate.
  - cbn [task_traces concat]. rewrite thread_events_app. destruct i as [|i].
    + injection Hnth as ->. rewrite Nat.add_0_r.
      cbn [in_thread fst]. rewrite thread_events_own.
      rewrite thread_events_earlier with (k:=S k); [apply app_nil_r|apply task_traces_owned|lia].
    + cbn in Hnth. rewrite thread_events_foreign with (th':=Worker k).
      * replace (k + S i)%nat with (S k + i)%nat by lia. now apply IH.
      * cbn. apply Forall_forall. intros te Hin.
        apply in_map_iff in Hin. destruct Hin as (e & <- & _). reflexivity.
      * unfold thread_eqb. apply Nat.eqb_neq. lia.
Qed.

(** In the trace of the pool, the operations of worker [i] are those of the
    task of device [i], in the order the task performed them. *)
Lemma executor_map_thread (schedule : list nat) (envs : nat -> TaskEnv)
    (ip_phones : list Device) (i : nat) (device : Device) :
  nth_error ip_phones i = Some device ->
  thread_events (Worker i) (trace (executor_map schedule envs ip_phones))
  = trace (reboot_ipphone (envs i) device).
Proof.
  intros Hnth. unfold executor_map, trace at 1. cbn [fst].
  rewrite (thread_events_merge _ _ _ _ (task_traces_owned envs ip_phones 0)).
  exact (task_traces_thread envs ip_phones 0 i device Hnth).
Qed.

(** ** The device task inside the run *)

Lemma filter_get_to_get (url : string) (t : list event) :
  filter (is_get_to url) t = filter (is_get_to url) (filter is_get t).
Proof.
  induction t as [|e t IH]; [reflexivity|].
  destruct e; cbn [filter is_get is_get_to]; try exact IH.
  destruct (url0 =? url)%string; [now rewrite IH|exact IH].
Qed.

Lemma write_log_line (message : string) : In (EPrint message) (trace (write_log message)).
Proof. destruct (write_log_first message) as [rest ->]. now left. Qed.

(** The task of a reachable device whose browser started, once the
    extractor has returned: its entries and its reboot requests. *)
Lemma reachable_task (env : TaskEnv) (device : Device) (driver : WebDriver)
    (uptime callstate : string) :
  is_ok (env_ping env) = true ->
  env_chrome env = Ok driver ->
  result (get_ipphone_status driver (d_ip device) (d_user device) (d_pass device)
            (d_name device)) = Ok (uptime, callstate) ->
  result (reboot_ipphone env device) = result (decide_and_quit driver device callstate) /\
  appended (trace (reboot_ipphone env device))
    = [(d_ip device, d_name device, uptime, callstate)] /\
  filter (is_get_to (reboot_url (d_ip device) (d_user device) (d_pass device)))
         (trace (reboot_ipphone env device))
    = if (callstate =? IDLE)%string
      then [EGet (reboot_url (d_ip device) (d_user device) (d_pass device))]
      else [].
Proof.
  intros Hping Hchrome Hres.
  destruct (status_trace_kind driver (d_ip device) (d_user device) (d_pass device)
              (d_name device)) as (Happ & Hget & _).
  destruct (get_ipphone_status driver _ _ _ _) as [t r] eqn:Heq.
  unfold result, trace in Hres, Happ, Hget. cbn [fst snd] in Hres, Happ, Hget. subst r.
  rewrite (reboot_ipphone_reachable env device driver t uptime callstate Hping Hchrome Heq).
  destruct (decide_trace_kind driver device callstate) as (d & -> & _ & Hd & _ & Hdget).
  unfold result, trace. cbn [fst snd]. repeat split.
  - rewrite !appended_app, Happ, Hd. reflexivity.
  - rewrite !filter_app, (filter_get_to_get _ t), (filter_get_to_get _ d), Hget, Hdget.
    cbn [filter]. rewrite is_get_to_status_url. cbn [is_get_to app].
    destruct (callstate =? IDLE)%string; [|reflexivity].
    cbn [filter is_get_to]. now rewrite String.eqb_refl.
Qed.

(** The task of a reachable device whose browser started, when the log
    line of the extractor raises: nothing is recorded, nothing is requested
    but the status page, and the browser stays open. *)
Lemma unlogged_status_task (env : TaskEnv) (device : Device) (driver : WebDriver) (e : exn) :
  is_ok (env_ping env) = true ->
  env_chrome env = Ok driver ->
  result (get_ipphone_status driver (d_ip device) (d_user device) (d_pass device)
            (d_name device)) = Raise e ->
  result (reboot_ipphone env device) = Raise e /\
  appended (trace (reboot_ipphone env device)) = [] /\
  filter (is_get_to (reboot_url (d_ip device) (d_user device) (d_pass device)))
         (trace (reboot_ipphone env device)) = [] /\
  filter is_quit (trace (reboot_ipphone env device)) = [].
Proof.
  intros Hping Hchrome Hres.
  destruct (status_trace_kind driver (d_ip device) (d_user device) (d_pass device)
              (d_name device)) as (Happ & Hget & Hquit & _).
  destruct (get_ipphone_status driver _ _ _ _) as [t r] eqn:Heq.
  unfold result, trace in Hres, Happ, Hget, Hquit. cbn [fst snd] in Hres, Happ, Hget, Hquit.
  subst r.
  rewrite (reboot_ipphone_status_raises env device driver t e Hping Hchrome Heq).
  unfold result, trace. cbn [fst snd]. repeat split.
  - rewrite appended_app, Happ. reflexivity.
  - rewrite filter_app, (filter_get_to_get _ t), Hget. cbn [filter].
    now rewrite is_get_to_status_url.
  - rewrite filter_app, Hquit. reflexivity.
Qed.

(** The task of a device that does not answer the ping. *)
Lemma unreachable_task (env : TaskEnv) (device : Device) :
  is_ok (env_ping env) = false ->
  let task := reboot_ipphone env device in
  filter is_get (trace task) = [] /\
  filter is_chrome (trace task) = [] /\
  filter is_quit (trace task) = [] /\
  (logged (unreachable_text device) = true ->
   result task = Ok tt /\
   appended (trace task) = [(d_ip device, d_name device, NA, UNREACHABLE)]) /\
  (forall e, result (write_log (unreachable_text device)) = Raise e ->
             result task = Raise e /\ appended (trace task) = []).
Proof.
  intros Hping task. subst task. rewrite (reboot_ipphone_unreachable env device Hping).
  unfold logged, log_then, bind, emit.
  pose proof (write_log_only_prints (unreachable_text device)) as Hprints.
  destruct (write_log (unreachable_text device)) as [t r].
  unfold trace, result in *. cbn [fst snd] in *.
  destruct r as [[]|e0]; cbn [fst snd app filter is_get is_chrome is_quit appended];
    rewrite ?filter_app, ?appended_app, ?app_nil_r;
    rewrite (prints_filtered is_get t), (prints_filtered is_chrome t),
      (prints_filtered is_quit t), ?(prints_not_appended t) by (assumption || reflexivity);
    repeat split; try discriminate.
  now injection H as <-.
Qed.

(** ** The device task inside the run *)

(** C1: for every device of the run whose probe succeeds and whose
    extracted call-state is exactly "0 Active Calls", the worker of that
    device issues the GET to the device's reboot address exactly once. *)
Theorem C1_idle_device_rebooted_once
    (schedule : list nat) (envs : nat -> TaskEnv) (ip_phones : list Device)
    (i : nat) (device : Device) (driver : WebDriver) (uptime : string) :
  nth_error ip_phones i = Some device ->
  is_ok (env_ping (envs i)) = true ->
  env_chrome (envs i) = Ok driver ->
  result (get_ipphone_status driver (d_ip device) (d_user device) (d_pass device)
            (d_name device)) = Ok (uptime, IDLE) ->
  count (is_get_to (reboot_url (d_ip device) (d_user device) (d_pass device)))
        (thread_events (Worker i) (trace (executor_map schedule envs ip_phones)))
  = 1%nat.
Proof.
  intros Hnth Hping Hchrome Hres. unfold count.
  rewrite (executor_map_thread schedule envs ip_phones i device Hnth).
  destruct (reachable_task (envs i) device driver uptime IDLE Hping Hchrome Hres)
    as (_ & _ & Hgets).
  rewrite Hgets. reflexivity.
Qed.

(** C2: the worker of a device whose probe fails performs no GET and starts
    no browser, and it records the entry (ip, name, "N/A", "Unreachable"),
    labelled Unreachable, when the line of line 120 is logged.  But that
    line is logged before the entry is appended and outside every [try]:
    when [write_log] raises there, the task ends with the exception and the
    device is not recorded. *)
Theorem C2_unreachable_device_lost_when_log_fails
    (schedule : list nat) (envs : nat -> TaskEnv) (ip_phones : list Device)
    (i : nat) (device : Device) :
  nth_error ip_phones i = Some device ->
  is_ok (env_ping (envs i)) = false ->
  let mine := thread_events (Worker i) (trace (executor_map schedule envs ip_phones)) in
  filter is_get mine = [] /\
  filter is_chrome mine = [] /\
  (logged (unreachable_text device) = true ->
   appended mine = [(d_ip device, d_name device, NA, UNREACHABLE)] /\
   forall entry, In entry (appended mine) ->
                 row_status (entry_callstate entry) = "Unreachable") /\
  (forall e, result (write_log (unreachable_text device)) = Raise e ->
             result (reboot_ipphone (envs i) device) = Raise e /\
             appended mine = []).
Proof.
  intros Hnth Hping mine. subst mine.
  rewrite (executor_map_thread schedule envs ip_phones i device Hnth).
  destruct (unreachable_task (envs i) device Hping) as (Hget & Hchrome & _ & Hlogged & Hlost).
  split; [exact Hget|]. split; [exact Hchrome|]. split.
  - intros Hlog. destruct (Hlogged Hlog) as [_ Happ]. split; [exact Happ|].
    rewrite Happ. intros entry [<-|[]]. reflexivity.
  - intros e He. exact (Hlost e He).
Qed.

(** C3, as amended: for every device of the run whose probe succeeds and
    whose call-state is not "0 Active Calls" (the sentinel "N/A" included),
    no reboot GET is issued; the report labels the recorded entry Skipped or
    Error, except when the extracted call-state is the text "Unreachable",
    which the report labels Unreachable. *)
Theorem C3_busy_device_not_rebooted
    (schedule : list nat) (envs : nat -> TaskEnv) (ip_phones : list Device)
    (i : nat) (device : Device) (driver : WebDriver) (uptime callstate : string) :
  nth_error ip_phones i = Some device ->
  is_ok (env_ping (envs i)) = true ->
  env_chrome (envs i) = Ok driver ->
  result (get_ipphone_status driver (d_ip device) (d_user device) (d_pass device)
            (d_name device)) = Ok (uptime, callstate) ->
  callstate <> IDLE ->
  let mine := thread_events (Worker i) (trace (executor_map schedule envs ip_phones)) in
  count (is_get_to (reboot_url (d_ip device) (d_user device) (d_pass device))) mine = 0%nat /\
  appended mine = [(d_ip device, d_name device, uptime, callstate)] /\
  (callstate <> UNREACHABLE ->
   row_status callstate = "Skipped" \/ row_status callstate = "Error") /\
  (callstate = NA -> row_status callstate = "Error") /\
  (callstate = UNREACHABLE -> row_status callstate = "Unreachable").
Proof.
  intros Hnth Hping Hchrome Hres Hbusy mine. subst mine. unfold count.
  rewrite (executor_map_thread schedule envs ip_phones i device Hnth).
  destruct (reachable_task (envs i) device driver uptime callstate Hping Hchrome Hres)
    as (_ & Happ & Hgets).
  rewrite Hgets, Happ.
  apply String.eqb_neq in Hbusy. rewrite Hbusy.
  apply String.eqb_neq in Hbusy.
  repeat split.
  - intros Hu. destruct (String.eqb_spec callstate NA) as [->|Hn].
    + right. reflexivity.
    + left. now apply row_status_other.
  - intros ->. reflexivity.
  - intros ->. reflexivity.
Qed.

Lemma decide_reboot_failed_line (driver : WebDriver) (device : Device) (e : exn) :
  drv_get driver (reboot_url (d_ip device) (d_user device) (d_pass device)) = Raise e ->
  In (reboot_error_line device e) (trace (decide_and_quit driver device IDLE)).
Proof.
  intros Hget. unfold decide_and_quit. rewrite quit_always, String.eqb_refl. cbv zeta.
  cbn [negb]. rewrite Hget. unfold perform, bind, try_except.
  pose proof (write_log_line (reboot_error_text device e)) as Hline.
  destruct (write_log (reboot_error_text device e)) as [t r].
  unfold trace in *. cbn [fst app] in *. destruct r; cbn [fst];
    right; apply in_or_app; left; exact Hline.
Qed.

(** C9: for every reachable device whose call-state is "0 Active Calls",
    when the reboot GET raises, the only entry the task recorded is the one
    appended before the attempt, with the uptime and call-state read from
    the page, and the report labels it Rebooted; the task logs the error,
    and ends normally when that line is logged. *)
Theorem C9_failed_reboot_reported_rebooted
    (schedule : list nat) (envs : nat -> TaskEnv) (ip_phones : list Device)
    (i : nat) (device : Device) (driver : WebDriver) (uptime : string) :
  nth_error ip_phones i = Some device ->
  is_ok (env_ping (envs i)) = true ->
  env_chrome (envs i) = Ok driver ->
  result (get_ipphone_status driver (d_ip device) (d_user device) (d_pass device)
            (d_name device)) = Ok (uptime, IDLE) ->
  is_ok (drv_get driver (reboot_url (d_ip device) (d_user device) (d_pass device))) = false ->
  let mine := thread_events (Worker i) (trace (executor_map schedule envs ip_phones)) in
  appended mine = [(d_ip device, d_name device, uptime, IDLE)] /\
  (forall entry, In entry (appended mine) ->
                 row_class (entry_callstate entry) = (row_style_of "#ccffcc", "Rebooted")) /\
  (exists e,
      drv_get driver (reboot_url (d_ip device) (d_user device) (d_pass device)) = Raise e /\
      In (reboot_error_line device e) mine /\
      (logged (reboot_error_text device e) = true ->
       result (reboot_ipphone (envs i) device) = Ok tt)).
Proof.
  intros Hnth Hping Hchrome Hres Hfail mine. subst mine.
  rewrite (executor_map_thread schedule envs ip_phones i device Hnth).
  destruct (reachable_task (envs i) device driver uptime IDLE Hping Hchrome Hres)
    as (Hok & Happ & _).
  rewrite Happ. repeat split; trivial.
  - intros entry [<-|[]]. reflexivity.
  - destruct (drv_get driver _) as [u|e] eqn:Hget; [discriminate|].
    exists e. repeat split.
    + destruct (get_ipphone_status driver _ _ _ _) as [t r] eqn:Heq.
      unfold result in Hres. cbn [snd] in Hres. subst r.
      rewrite (reboot_ipphone_reachable (envs i) device driver t uptime IDLE Hping Hchrome Heq).
      unfold trace at 1. cbn [fst].
      apply in_or_app. right. apply in_or_app. right. apply in_or_app. right.
      now apply decide_reboot_failed_line.
    + intros Hlog. rewrite Hok. exact (decide_reboot_failed driver device e Hget Hlog).
Qed.

(** ** The classification of the entry of a failed extraction *)

(** When retrieval or parsing fails, the extractor logs the error and, when
    the line is logged, returns the sentinel pair. *)
Lemma failed_fetch_status (driver : WebDriver) (ip user passwd name : string) (e : exn) :
  fetched_page driver (status_url ip user passwd) = Raise e ->
  exists before,
    get_ipphone_status driver ip user passwd name
    = log_then before (read_error_text ip name e) (NA, NA).
Proof.
  intros Hfail. rewrite get_ipphone_status_eq. unfold fetched_page in Hfail.
  destruct (drv_get driver _) as [u|e0]; [|injection Hfail as ->; eauto].
  destruct (drv_page_source driver _) as [src|e0]; [|injection Hfail as ->; eauto].
  destruct (BeautifulSoup src) as [s|e0]; [discriminate|injection Hfail as ->; eauto].
Qed.


Lemma log_then_value {A} (before : list event) (message : string) (a b : A) :
  result (log_then before message a) = Ok b -> b = a.
Proof.
  unfold log_then, result. cbn [snd].
  destruct (snd (write_log message)); [now intros [= ->]|discriminate].
Qed.

(** C10: the label of a row is decided by the call-state alone, testing
    "Unreachable" first, then "N/A", then anything other than
    "0 Active Calls", and Rebooted otherwise; so an entry whose call-state
    is "N/A", as every entry is that the task of a reachable device records
    after a failed extraction, is labelled Error and not Skipped, although
    "N/A" differs from "0 Active Calls". *)
Theorem C10_classification_precedence (callstate : string) :
  (callstate = "Unreachable" -> row_status callstate = "Unreachable") /\
  (callstate <> "Unreachable" -> callstate = "N/A" -> row_status callstate = "Error") /\
  (callstate <> "Unreachable" -> callstate <> "N/A" -> callstate <> "0 Active Calls" ->
   row_status callstate = "Skipped") /\
  (callstate <> "Unreachable" -> callstate <> "N/A" -> callstate = "0 Active Calls" ->
   row_status callstate = "Rebooted") /\
  (NA <> IDLE /\ row_status NA = "Error" /\ row_status NA <> "Skipped") /\
  (forall (env : TaskEnv) (device : Device) (driver : WebDriver) (entry : log_entry),
      is_ok (env_ping env) = true ->
      env_chrome env = Ok driver ->
      is_ok (fetched_page driver
               (status_url (d_ip device) (d_user device) (d_pass device))) = false ->
      In entry (appended (trace (reboot_ipphone env device))) ->
      entry = (d_ip device, d_name device, NA, NA) /\
      row_status (entry_callstate entry) = "Error").
Proof.
  repeat split.
  - intros ->. reflexivity.
  - intros _ ->. reflexivity.
  - intros Hu Hn Hi. now apply row_status_other.
  - intros _ _ ->. reflexivity.
  - discriminate.
  - discriminate.
  - destruct (fetched_page driver _) as [s|e] eqn:Hpage; [discriminate|].
    destruct (failed_fetch_status driver _ _ _ (d_name device) e Hpage) as [before Heq].
    destruct (result (get_ipphone_status driver (d_ip device) (d_user device)
                        (d_pass device) (d_name device))) as [[u c]|e'] eqn:Hres.
    + destruct (reachable_task env device driver u c H H0 Hres) as (_ & Happ & _).
      rewrite Heq in Hres. apply log_then_value in Hres. injection Hres as -> ->.
      rewrite Happ in H2. now destruct H2 as [<-|[]].
    + destruct (unlogged_status_task env device driver e' H H0 Hres) as (_ & Happ & _).
      rewrite Happ in H2. destruct H2.
  - destruct (fetched_page driver _) as [s|e] eqn:Hpage; [discriminate|].
    destruct (failed_fetch_status driver _ _ _ (d_name device) e Hpage) as [before Heq].
    destruct (result (get_ipphone_status driver (d_ip device) (d_user device)
                        (d_pass device) (d_name device))) as [[u c]|e'] eqn:Hres.
    + destruct (reachable_task env device driver u c H H0 Hres) as (_ & Happ & _).
      rewrite Heq in Hres. apply log_then_value in Hres. injection Hres as -> ->.
      rewrite Happ in H2. now destruct H2 as [<-|[]].
    + destruct (unlogged_status_task env device driver e' H H0 Hres) as (_ & Happ & _).
      rewrite Happ in H2. destruct H2.
Qed.

(** ** The subject of the mail *)

Lemma error_state_test (callstate : string) :
  existsb (String.eqb callstate) ["N/A"; "Unreachable"] = true <-> is_error_state callstate.
Proof.
  unfold is_error_state. cbn [existsb]. rewrite !orb_true_iff, !String.eqb_eq.
  intuition discriminate.
Qed.

Lemma subject_cases (log_entries : list log_entry) :
  (get_email_subject log_entries = SUBJECT_ERRORS /\
   exists entry, In entry log_entries /\ is_error_state (entry_callstate entry))
  \/
  (get_email_subject log_entries = SUBJECT_OK /\
   forall entry, In entry log_entries -> ~ is_error_state (entry_callstate entry)).
Proof.
  induction log_entries as [|[[[ip name] uptime] callstate] rest IH].
  - right. split; [reflexivity|]. intros entry [].
  - cbn [get_email_subject].
    destruct (existsb (String.eqb callstate) ["N/A"; "Unreachable"]) eqn:Htest.
    + left. split; [reflexivity|].
      exists (ip, name, uptime, callstate). split; [now left|].
      now apply error_state_test.
    + destruct IH as [(Hs & entry & Hin & Herr)|(Hs & Hnone)].
      * left. split; [exact Hs|]. exists entry. split; [now right|exact Herr].
      * right. split; [exact Hs|]. intros entry [<-|Hin]; [|now apply Hnone].
        intros Herr. apply error_state_test in Herr. cbn [entry_callstate snd] in Herr.
        congruence.
Qed.

Lemma subjects_differ : SUBJECT_ERRORS <> SUBJECT_OK.
Proof. discriminate. Qed.

(** C6: the subject is the "Errors Found" one exactly when some entry has
    call-state "N/A" or "Unreachable", and the "All OK" one otherwise; it is
    the same for every permutation of the entries. *)
Theorem C6_subject_existential (log_entries : list log_entry) :
  (get_email_subject log_entries = SUBJECT_ERRORS <->
   exists entry, In entry log_entries /\
                 (entry_callstate entry = "N/A" \/ entry_callstate entry = "Unreachable")) /\
  (get_email_subject log_entries = SUBJECT_OK <->
   ~ exists entry, In entry log_entries /\
                   (entry_callstate entry = "N/A" \/ entry_callstate entry = "Unreachable")) /\
  (forall permuted, Permutation log_entries permuted ->
                    get_email_subject permuted = get_email_subject log_entries).
Proof.
  assert (Hiff : forall l,
             get_email_subject l = SUBJECT_ERRORS <->
             exists entry, In entry l /\ is_error_state (entry_callstate entry)).
  { intros l. destruct (subject_cases l) as [(Hs & Hex)|(Hs & Hnone)].
    - split; trivial.
    - split.
      + intros He. rewrite Hs in He. symmetry in He. now apply subjects_differ in He.
      + intros (entry & Hin & Herr). now apply Hnone in Herr. }
  repeat split.
  - apply Hiff.
  - apply Hiff.
  - intros Hok Hex. apply Hiff in Hex. rewrite Hok in Hex.
    symmetry in Hex. now apply subjects_differ in Hex.
  - intros Hnone. destruct (subject_cases log_entries) as [(_ & Hex)|(Hs & _)]; trivial.
    now destruct Hnone.
  - intros permuted Hperm.
    destruct (subject_cases log_entries) as [(Hs & entry & Hin & Herr)|(Hs & Hnone)];
      rewrite Hs.
    + apply Hiff. exists entry. split; [|exact Herr].
      now apply (Permutation_in entry Hperm).
    + destruct (subject_cases permuted) as [(_ & entry & Hin & Herr)|(Hs' & _)]; trivial.
      apply (Permutation_in entry (Permutation_sym Hperm)) in Hin.
      now apply Hnone in Herr.
Qed.

(** ** The status extractor *)


(** ** The notifier *)

Lemma filter_narrower {A} (p q : A -> bool) (l : list A) :
  (forall x, p x = true -> q x = true) ->
  filter p (filter q l) = filter p l.
Proof.
  intros Himp. induction l as [|x l IH]; [reflexivity|].
  cbn [filter]. destruct (q x) eqn:Hq; cbn [filter].
  - now rewrite IH.
  - destruct (p x) eqn:Hp; [|exact IH]. apply Himp in Hp. congruence.
Qed.

Lemma attempts_counted (subject html : string) (delay : Z) (n : nat) :
  length (filter is_smtp (attempts_with_pauses subject html delay n)) = n /\
  length (filter is_sleep (attempts_with_pauses subject html delay n)) = Nat.pred n /\
  Forall (fun e => is_sleep e = true -> e = ESleep delay)
         (attempts_with_pauses subject html delay n).
Proof.
  induction n as [|n (IHa & IHs & IHf)]; [repeat split; constructor|].
  destruct n as [|n'].
  - repeat split. repeat constructor. discriminate.
  - change (attempts_with_pauses subject html delay (S (S n')))
      with (ESmtp subject html :: ESleep delay
              :: attempts_with_pauses subject html delay (S n')).
    cbn [filter is_smtp is_sleep length]. rewrite IHa, IHs.
    repeat split. constructor; [discriminate|]. constructor; [reflexivity|exact IHf].
Qed.

Section PrintingConsole.

Hypothesis every_line : prints_every_line.

Lemma write_log_eq (message : string) : write_log message = ([EPrint message], Ok tt).
Proof. apply write_log_printed, every_line. Qed.

(** One failed attempt, followed by the remaining ones. *)
Lemma send_attempts_failed_step (smtp : Z -> outcome unit) (subject html : string)
    (retries delay attempt : Z) (rest : list Z) (e : exn) :
  smtp attempt = Raise e ->
  0 <= delay ->
  send_attempts smtp subject html retries delay (attempt :: rest) =
  let (t', r) := send_attempts smtp subject html retries delay rest in
  ((ESmtp subject html :: send_failed_line attempt e ::
    (if attempt <? retries then [retry_line delay; ESleep delay] else []) ++ t')%list, r).
Proof.
  intros Hsmtp Hdelay. cbn [send_attempts]. rewrite Hsmtp.
  unfold sleep. destruct (Z.ltb_spec delay 0) as [Hneg|_]; [lia|].
  unfold try_except, bind, perform, emit, ret, send_failed_line, retry_line,
    send_failed_text, retry_text.
  rewrite !write_log_eq.
  destruct (attempt <? retries);
    destruct (send_attempts smtp subject html retries delay rest) as [t' r]; reflexivity.
Qed.


End PrintingConsole.


(** ** The device file and the pool *)

Lemma device_of_row_pure (row : csv_row) : trace (device_of_row row) = [].
Proof.
  unfold device_of_row, bind, lift, ret, trace.
  destruct (row_field row "ip"); [|reflexivity].
  destruct (row_field row "user"); [|reflexivity].
  destruct (row_field row "password"); [|reflexivity].
  destruct (row_field row "name"); reflexivity.
Qed.

Lemma read_rows_bad (reader : list (outcome csv_row)) :
  forall devices,
    forallb row_ok reader = false ->
    exists e, read_rows reader devices = ([], Raise e).
Proof.
  induction reader as [|next rest IH]; intros devices Hbad; [discriminate|].
  cbn [forallb] in Hbad. cbn [read_rows].
  destruct next as [row|e]; [|now exists e].
  unfold row_ok in Hbad at 1. pose proof (device_of_row_pure row) as Hpure.
  unfold lift, bind at 1.
  destruct (device_of_row row) as [t [device|e]]; unfold trace, result in *;
    cbn [fst snd is_ok andb] in *; subst t.
  - destruct (IH (devices ++ [device])%list Hbad) as [e He].
    exists e. unfold bind. rewrite He. reflexivity.
  - now exists e.
Qed.

(** A missing or malformed device file gives the empty list when the line
    that tells it is logged. *)
Lemma read_ipphones_from_csv_empty (file : outcome (list (outcome csv_row)))
    (file_path : string) :
  missing_or_malformed file = true ->
  exists e,
    read_ipphones_from_csv file file_path = log_then [EReadCsv file_path] (csv_error_text e) [].
Proof.
  intros Hbad. unfold read_ipphones_from_csv, log_then, csv_error_text, trace, result.
  destruct file as [reader|e].
  - cbn [missing_or_malformed] in Hbad. apply negb_true_iff in Hbad.
    destruct (read_rows_bad reader [] Hbad) as [e He].
    exists e. unfold try_except, bind, perform, ret. rewrite He.
    destruct (write_log _) as [t [[]|e']]; cbn; rewrite ?app_nil_r; reflexivity.
  - exists e. unfold try_except, bind, perform, ret.
    destruct (write_log _) as [t [[]|e']]; cbn; rewrite ?app_nil_r; reflexivity.
Qed.

(** C7: on a console that prints every line, with a missing or malformed
    device file the loader does give the empty list, but the script then
    asks for a pool of zero workers, which raises ValueError: the script
    ends there, before any report is written or mailed. *)
Theorem C7_empty_fleet_stops_the_script (w : World) (EMAIL_CONFIG : EmailConfig) :
  prints_every_line ->
  missing_or_malformed (w_csv w) = true ->
  result (read_ipphones_from_csv (w_csv w) "devices.csv") = Ok [] /\
  result (fleet_pass w EMAIL_CONFIG) = Raise NO_WORKERS /\
  filter is_write_file (map snd (trace (fleet_pass w EMAIL_CONFIG))) = [] /\
  filter is_smtp (map snd (trace (fleet_pass w EMAIL_CONFIG))) = [] /\
  (result (load_email_config (w_email_xml w)) = Ok (Some EMAIL_CONFIG) ->
   result (main w) = Raise NO_WORKERS).
Proof.
  intros Hprints Hbad.
  destruct (read_ipphones_from_csv_empty (w_csv w) "devices.csv" Hbad) as [e Hload].
  unfold log_then in Hload. rewrite (write_log_eq Hprints) in Hload.
  unfold trace, result in Hload. cbn [fst snd app] in Hload.
  assert (Hpass : fleet_pass w EMAIL_CONFIG =
                  ([(MainThread, EReadCsv "devices.csv");
                    (MainThread, CSV_ERROR e);
                    (MainThread, EPrint "[INFO] Starting IP Phone reboot process...")],
                   Raise NO_WORKERS)).
  { unfold fleet_pass. rewrite Hload, (write_log_eq Hprints). reflexivity. }
  rewrite Hpass, Hload. repeat split.
  intros Hcfg. unfold main.
  destruct (load_email_config (w_email_xml w)) as [t r].
  unfold result in Hcfg. cbn [snd] in Hcfg. subst r.
  unfold in_thread, bind. cbn [fst snd]. rewrite Hpass. reflexivity.
Qed.

Lemma pick_perm {A} (ts : list (list A)) :
  forall i x ts', pick i ts = Some (x, ts') -> Permutation (concat ts) (x :: concat ts').
Proof.
  induction ts as [|t ts IH]; intros i x ts' Hpick; [destruct i; discriminate|].
  destruct i as [|i].
  - destruct t as [|x0 t]; [discriminate|].
    cbn in Hpick. injection Hpick as -> <-. reflexivity.
  - cbn in Hpick.
    assert (Hrest : exists ts0, pick i ts = Some (x, ts0) /\ ts' = t :: ts0).
    { destruct t; destruct (pick i ts) as [[y ts0]|]; try discriminate;
        injection Hpick as -> <-; eauto. }
    destruct Hrest as (ts0 & Hpick0 & ->).
    cbn [concat]. rewrite (IH i x ts0 Hpick0).
    symmetry. apply Permutation_middle.
Qed.

Lemma schedule_merge_perm {A} (schedule : list nat) :
  forall ts : list (list A), Permutation (schedule_merge schedule ts) (concat ts).
Proof.
  induction schedule as [|i schedule IH]; intros ts; [reflexivity|].
  cbn [schedule_merge]. destruct (pick i ts) as [[x ts']|] eqn:Hpick; [|apply IH].
  rewrite (pick_perm ts i x ts' Hpick). constructor. apply IH.
Qed.

Lemma appended_flat_map (t : list event) : appended t = flat_map entry_of t.
Proof.
  induction t as [|e t IH]; [reflexivity|].
  destruct e; cbn; try exact IH. now rewrite IH.
Qed.

Lemma log_entries_perm (t1 t2 : list tevent) :
  Permutation t1 t2 -> Permutation (log_entries_of t1) (log_entries_of t2).
Proof.
  intros Hperm. unfold log_entries_of. rewrite !appended_flat_map.
  apply Permutation_flat_map, Permutation_map, Hperm.
Qed.

Lemma log_entries_app (t1 t2 : list tevent) :
  log_entries_of (t1 ++ t2) = (log_entries_of t1 ++ log_entries_of t2)%list.
Proof. unfold log_entries_of. now rewrite map_app, appended_app. Qed.

Lemma log_entries_tagged (th : thread) (t : list event) :
  log_entries_of (map (pair th) t) = appended t.
Proof. unfold log_entries_of. rewrite map_map. cbn [snd]. now rewrite map_id. Qed.

(** The entries of the pool are those of the tasks, in some order. *)
Lemma executor_map_entries (schedule : list nat) (envs : nat -> TaskEnv)
    (ip_phones : list Device) :
  Permutation
    (log_entries_of (trace (executor_map schedule envs ip_phones)))
    (log_entries_of (concat (task_traces envs 0 ip_phones))).
Proof. apply log_entries_perm, schedule_merge_perm. Qed.

(** A task records at most one entry, and the entry is of its device. *)
Lemma task_entries (env : TaskEnv) (device : Device) :
  appended (trace (reboot_ipphone env device)) = [] \/
  exists uptime callstate,
    appended (trace (reboot_ipphone env device))
    = [(d_ip device, d_name device, uptime, callstate)].
Proof.
  destruct (is_ok (env_ping env)) eqn:Hping.
  - destruct (env_chrome env) as [driver|e] eqn:Hchrome.
    + destruct (result (get_ipphone_status driver (d_ip device) (d_user device)
                          (d_pass device) (d_name device))) as [[u c]|e] eqn:Hres.
      * destruct (reachable_task env device driver u c Hping Hchrome Hres) as (_ & Happ & _).
        right. now exists u, c.
      * destruct (unlogged_status_task env device driver e Hping Hchrome Hres)
          as (_ & Happ & _).
        now left.
    + left. now rewrite (reboot_ipphone_no_driver env device e Hping Hchrome).
  - destruct (unreachable_task env device Hping) as (_ & _ & _ & Hlogged & Hlost).
    destruct (result (write_log (unreachable_text device))) as [[]|e] eqn:Hlog.
    + right. exists NA, UNREACHABLE. apply Hlogged. unfold logged. now rewrite Hlog.
    + left. now apply (Hlost e).
Qed.

(** A task that returns has recorded its entry. *)
Lemma returned_task_entry (env : TaskEnv) (device : Device) :
  is_ok (result (reboot_ipphone env device)) = true ->
  exists uptime callstate,
    appended (trace (reboot_ipphone env device))
    = [(d_ip device, d_name device, uptime, callstate)].
Proof.
  intros Hret. destruct (is_ok (env_ping env)) eqn:Hping.
  - destruct (env_chrome env) as [driver|e] eqn:Hchrome.
    + destruct (result (get_ipphone_status driver (d_ip device) (d_user device)
                          (d_pass device) (d_name device))) as [[u c]|e] eqn:Hres.
      * destruct (reachable_task env device driver u c Hping Hchrome Hres) as (_ & Happ & _).
        now exists u, c.
      * destruct (unlogged_status_task env device driver e Hping Hchrome Hres) as (Hr & _).
        rewrite Hr in Hret. discriminate Hret.
    + rewrite (reboot_ipphone_no_driver env device e Hping Hchrome) in Hret.
      discriminate Hret.
  - destruct (unreachable_task env device Hping) as (_ & _ & _ & Hlogged & Hlost).
    destruct (result (write_log (unreachable_text device))) as [[]|e] eqn:Hlog.
    + exists NA, UNREACHABLE. apply Hlogged. unfold logged. now rewrite Hlog.
    + destruct (Hlost e eq_refl) as [Hr _]. rewrite Hr in Hret. discriminate Hret.
Qed.

(** On a console that prints every line a task ends with an exception
    only when the browser cannot be started. *)
Lemma task_returns (env : TaskEnv) (device : Device) :
  prints_every_line ->
  is_ok (env_ping env) = false \/ is_ok (env_chrome env) = true ->
  result (reboot_ipphone env device) = Ok tt.
Proof.
  intros Hprints Henv.
  assert (Hlog : forall message e, result (write_log message) <> Raise e).
  { intros message e. rewrite (write_log_eq Hprints). discriminate. }
  destruct (is_ok (env_ping env)) eqn:Hping.
  - destruct Henv as [Hfalse|Hchrome]; [discriminate|].
    destruct (env_chrome env) as [driver|e] eqn:Hdriver; [|discriminate].
    destruct (status_result driver (d_ip device) (d_user device) (d_pass device)
                (d_name device)) as [(u & c & Hres)|(message & e & Hraise & _)];
      [|now apply Hlog in Hraise].
    destruct (reachable_task env device driver u c Hping Hdriver Hres) as (-> & _).
    destruct (result (decide_and_quit driver device c)) as [[]|e] eqn:Hd; [reflexivity|].
    destruct (decide_result driver device c e Hd) as [message Hraise].
    now apply Hlog in Hraise.
  - destruct (unreachable_task env device Hping) as (_ & _ & _ & Hlogged & _).
    apply Hlogged. unfold logged. now rewrite (write_log_eq Hprints).
Qed.

(** On a console that prints every line, when every device is either
    unreachable or gets its browser, the run ends with one entry for each
    device. *)
Lemma one_entry_per_device (schedule : list nat) (envs : nat -> TaskEnv)
    (ip_phones : list Device) :
  prints_every_line ->
  (forall i, is_ok (env_ping (envs i)) = false \/ is_ok (env_chrome (envs i)) = true) ->
  length (log_entries_of (trace (executor_map schedule envs ip_phones)))
  = length ip_phones.
Proof.
  intros Hprints Henv. rewrite (Permutation_length (executor_map_entries _ _ _)).
  generalize 0%nat. induction ip_phones as [|device rest IH]; intros k; [reflexivity|].
  cbn [task_traces concat length]. rewrite log_entries_app, length_app, IH.
  cbn [in_thread fst]. rewrite log_entries_tagged.
  destruct (returned_task_entry (envs k) device) as (u & c & Happ).
  - now rewrite (task_returns (envs k) device Hprints (Henv k)).
  - unfold trace in Happ. now rewrite Happ.
Qed.

(** C4, on a device that answers the ping while the browser cannot be
    started: the task of that device ends with the exception before it
    appends anything, the pool drops the exception, and the run ends with no
    entry for one device. *)
Theorem C4_browser_failure_loses_the_entry
    (schedule : list nat) (device : Device) (e : exn) :
  let envs := fun _ : nat => mkTaskEnv (Ok tt) (Raise e) in
  result (reboot_ipphone (envs 0%nat) device) = Raise e /\
  result (executor_map schedule envs [device]) = Ok tt /\
  log_entries_of (trace (executor_map schedule envs [device])) = [] /\
  length (log_entries_of (trace (executor_map schedule envs [device])))
    <> length [device].
Proof.
  intros envs.
  assert (Hnone : log_entries_of (trace (executor_map schedule envs [device])) = []).
  { apply Permutation_nil. symmetry.
    rewrite (executor_map_entries schedule envs [device]). reflexivity. }
  rewrite Hnone. repeat split. discriminate.
Qed.


End Properties.
(** * Further properties of the script *)

Section Further.

Context {pystr : PyStr} {bs4 : Bs4} {console : Console}.

(** ** The e-mail configuration and the start of the script *)

Ltac split_fields root :=
  repeat match goal with
         | |- context [find_text root ?name] =>
             let text := fresh "text" in
             let e := fresh "e" in
             destruct (find_text root name) as [text|e] eqn:?
         end.


(** X2: when the configuration is valid the loader prints nothing and
    returns the six values, each the stripped text of its element; the
    send flag is on exactly when that text, put in lower case, is "true". *)
Theorem load_email_config_valid (root : xml_root) :
  config_valid (Ok root) = true ->
  exists cfg flag port_text,
    load_email_config (Ok root) = ([], Ok (Some cfg)) /\
    find_text root "send_if_error" = Ok flag /\
    send_if_error cfg = (lower flag =? "true")%string /\
    find_text root "sender" = Ok (sender cfg) /\
    find_text root "password" = Ok (password cfg) /\
    find_text root "recipient" = Ok (recipient cfg) /\
    find_text root "smtp_server" = Ok (smtp_server cfg) /\
    find_text root "smtp_port" = Ok port_text /\
    int_of_str port_text = Ok (smtp_port cfg).
Proof.
  intros Hvalid. unfold config_valid, CONFIG_FIELDS in Hvalid. unfold load_email_config.
  cbn [forallb] in Hvalid. unfold lift, bind, try_except, ret, emit.
  split_fields root; cbn [is_ok andb] in Hvalid; try discriminate.
  destruct (int_of_str text4) as [port|e] eqn:Hport; [|discriminate].
  exists (mkEmailConfig (lower text =? "true")%string text0 text1 text2 text3 port), text, text4.
  repeat split; assumption.
Qed.

(** ** The device file *)

Lemma read_rows_good (reader : list (outcome csv_row)) :
  forall devices,
    forallb row_ok reader = true ->
    exists loaded,
      read_rows reader devices = ([], Ok (devices ++ loaded)%list) /\
      Forall2 (fun next device =>
                 exists row, next = Ok row /\ result (device_of_row row) = Ok device)
              reader loaded.
Proof.
  induction reader as [|next rest IH]; intros devices Hgood.
  - exists []. rewrite app_nil_r. split; [reflexivity|constructor].
  - cbn [forallb] in Hgood. apply andb_true_iff in Hgood. destruct Hgood as [Hrow Hrest].
    destruct next as [row|e]; [|discriminate].
    cbn [row_ok] in Hrow. pose proof (device_of_row_pure row) as Hpure.
    cbn [read_rows]. unfold lift, bind at 1.
    destruct (device_of_row row) as [t [device|e]] eqn:Hdev;
      unfold trace, result in *; cbn [fst snd is_ok] in *; [subst t|discriminate].
    destruct (IH (devices ++ [device])%list Hrest) as (loaded & Hread & Hall).
    exists (device :: loaded). split.
    + unfold bind. rewrite Hread. cbn [app]. now rewrite <- app_assoc.
    + constructor; [|exact Hall]. exists row. rewrite Hdev. now split.
Qed.

(** X3: a device file that opens and whose rows all have the four fields
    gives one device for each row, in the order of the file, and nothing is
    written to the log. *)
Theorem read_ipphones_from_csv_well_formed
    (reader : list (outcome csv_row)) (file_path : string) :
  forallb row_ok reader = true ->
  exists devices,
    read_ipphones_from_csv (Ok reader) file_path = ([EReadCsv file_path], Ok devices) /\
    length devices = length reader /\
    Forall2 (fun next device =>
               exists row, next = Ok row /\ result (device_of_row row) = Ok device)
            reader devices.
Proof.
  intros Hgood. destruct (read_rows_good reader [] Hgood) as (devices & Hread & Hall).
  exists devices. repeat split.
  - unfold read_ipphones_from_csv, try_except, bind, perform. rewrite Hread. reflexivity.
  - symmetry. exact (Forall2_length Hall).
  - exact Hall.
Qed.

(** X4: one row that cannot be read or lacks a field discards the whole
    file: the devices of the rows before it are dropped too and, on a
    console that prints every line, the loader logs one error and returns
    the empty list. *)
Theorem read_ipphones_from_csv_all_or_nothing
    (before after : list (outcome csv_row)) (bad : outcome csv_row) (file_path : string) :
  prints_every_line ->
  row_ok bad = false ->
  exists e,
    read_ipphones_from_csv (Ok (before ++ bad :: after)%list) file_path =
    ([EReadCsv file_path; CSV_ERROR e], Ok []).
Proof.
  intros Hprints Hbad.
  destruct (read_ipphones_from_csv_empty (Ok (before ++ bad :: after)%list) file_path)
    as [e Hload].
  - cbn [missing_or_malformed]. rewrite forallb_app. cbn [forallb].
    rewrite Hbad, andb_false_r. reflexivity.
  - exists e. rewrite Hload. unfold log_then. rewrite (write_log_eq Hprints). reflexivity.
Qed.

(** ** The first "Service Status" section *)


(** ** The device task *)

(** X6: once the browser of a device has started and the status extractor
    has returned, the task closes the browser exactly once, as its last
    operation, on every path (skipped, rebooted, reboot failed), whether
    the lines of that path are logged or not and even when closing raises.
    But when the log line of the extractor raises (lines 108 and 111 are
    outside every [try] of the task), the task ends with that exception
    and never closes the browser. *)
Theorem browser_closed_once_after_status
    (env : TaskEnv) (device : Device) (driver : WebDriver) :
  is_ok (env_ping env) = true ->
  env_chrome env = Ok driver ->
  let call := get_ipphone_status driver (d_ip device) (d_user device) (d_pass device)
                                 (d_name device) in
  let task := reboot_ipphone env device in
  (is_ok (result call) = true ->
   count is_quit (trace task) = 1%nat /\ exists t, trace task = (t ++ [EQuit])%list) /\
  (forall e, result call = Raise e ->
             result task = Raise e /\ count is_quit (trace task) = 0%nat).
Proof.
  intros Hping Hchrome call task. subst call task. split.
  - intros Hret.
    destruct (status_trace_kind driver (d_ip device) (d_user device) (d_pass device)
                (d_name device)) as (_ & _ & Hquiet & _).
    destruct (get_ipphone_status driver _ _ _ _) as [t [[u c]|e]] eqn:Heq;
      [|discriminate Hret].
    unfold trace in Hquiet. cbn [fst] in Hquiet.
    rewrite (reboot_ipphone_reachable env device driver t u c Hping Hchrome Heq).
    destruct (decide_trace_kind driver device c) as (d & -> & Hd & _).
    unfold trace, count. cbn [fst]. split.
    + rewrite !filter_app, Hquiet, Hd. reflexivity.
    + exists ([EPing (d_ip device); EChrome] ++ t
              ++ [EAppend (d_ip device, d_name device, u, c)] ++ d)%list.
      now rewrite <- !app_assoc.
  - intros e Hraise.
    destruct (unlogged_status_task env device driver e Hping Hchrome Hraise)
      as (Hres & _ & _ & Hquit).
    unfold count. now rewrite Hquit.
Qed.

(** X7: an exception leaves the task of a device only when [create_driver]
    raised it, the device having answered the ping (the task has then
    pinged and tried to start the browser, nothing else), or when
    [write_log] raised it: the exceptions of the ping, of the navigation,
    of the page source, of the parser and of [driver.quit] never leave the
    task. *)
Theorem task_raises_from_browser_start_or_log (env : TaskEnv) (device : Device) (e : exn) :
  (is_ok (env_ping env) = true -> env_chrome env = Raise e ->
   reboot_ipphone env device = ([EPing (d_ip device); EChrome], Raise e)) /\
  (result (reboot_ipphone env device) = Raise e ->
   (is_ok (env_ping env) = true /\ env_chrome env = Raise e) \/
   exists message, result (write_log message) = Raise e).
Proof.
  split; [apply reboot_ipphone_no_driver|]. intros Hraise.
  destruct (is_ok (env_ping env)) eqn:Hping.
  - destruct (env_chrome env) as [driver|e'] eqn:Hchrome.
    + right.
      destruct (status_result driver (d_ip device) (d_user device) (d_pass device)
                  (d_name device)) as [(u & c & Hres)|(message & e' & Hlog & Hres)].
      * destruct (reachable_task env device driver u c Hping Hchrome Hres) as (Hr & _).
        rewrite Hr in Hraise. exact (decide_result driver device c e Hraise).
      * destruct (unlogged_status_task env device driver e' Hping Hchrome Hres) as (Hr & _).
        rewrite Hr in Hraise. injection Hraise as <-. now exists message.
    + left. rewrite (reboot_ipphone_no_driver env device e' Hping Hchrome) in Hraise.
      injection Hraise as <-. now split.
  - right. destruct (unreachable_task env device Hping) as (_ & _ & _ & Hlogged & Hlost).
    destruct (result (write_log (unreachable_text device))) as [[]|e'] eqn:Hlog.
    + destruct Hlogged as [Hr _]; [unfold logged; now rewrite Hlog|].
      rewrite Hr in Hraise. discriminate Hraise.
    + destruct (Hlost e' eq_refl) as [Hr _]. rewrite Hr in Hraise.
      injection Hraise as <-. now exists (unreachable_text device).
Qed.

Lemma row_status_rebooted_iff (callstate : string) :
  row_status callstate = "Rebooted" <-> callstate = IDLE.
Proof.
  unfold row_status, row_class, IDLE.
  destruct (String.eqb_spec callstate "Unreachable") as [->|_]; [split; discriminate|].
  destruct (String.eqb_spec callstate "N/A") as [->|_]; [split; discriminate|].
  destruct (String.eqb_spec callstate "0 Active Calls") as [->|Hne]; cbn.
  - split; reflexivity.
  - split; [discriminate|]. intros H. now destruct Hne.
Qed.

(** The entries and the reboot requests of a task, together. *)
Lemma task_entry_and_requests (env : TaskEnv) (device : Device) :
  let task := trace (reboot_ipphone env device) in
  let requests :=
    filter (is_get_to (reboot_url (d_ip device) (d_user device) (d_pass device))) task in
  (appended task = [] /\ requests = []) \/
  exists uptime callstate,
    appended task = [(d_ip device, d_name device, uptime, callstate)] /\
    requests = if (callstate =? IDLE)%string
               then [EGet (reboot_url (d_ip device) (d_user device) (d_pass device))]
               else [].
Proof.
  intros task requests. subst task requests.
  destruct (is_ok (env_ping env)) eqn:Hping.
  - destruct (env_chrome env) as [driver|e] eqn:Hchrome.
    + destruct (result (get_ipphone_status driver (d_ip device) (d_user device)
                          (d_pass device) (d_name device))) as [[u c]|e] eqn:Hres.
      * destruct (reachable_task env device driver u c Hping Hchrome Hres)
          as (_ & Happ & Hgets).
        right. now exists u, c.
      * destruct (unlogged_status_task env device driver e Hping Hchrome Hres)
          as (_ & Happ & Hgets & _).
        now left.
    + left. now rewrite (reboot_ipphone_no_driver env device e Hping Hchrome).
  - destruct (unreachable_task env device Hping) as (Hget & _ & _ & Hlogged & Hlost).
    assert (Hnone : filter (is_get_to (reboot_url (d_ip device) (d_user device)
                                         (d_pass device)))
                           (trace (reboot_ipphone env device)) = [])
      by now rewrite filter_get_to_get, Hget.
    destruct (result (write_log (unreachable_text device))) as [[]|e] eqn:Hlog.
    + right. exists NA, UNREACHABLE. split; [|exact Hnone].
      apply Hlogged. unfold logged. now rewrite Hlog.
    + left. split; [now apply (Hlost e)|exact Hnone].
Qed.

(** X8: a task never issues the reboot request without having recorded its
    entry, it records at most one entry, and the report labels that entry
    Rebooted exactly when the task issued the reboot request: the test of
    line 130 and the labels of lines 156-167 agree. *)
Theorem rebooted_label_iff_reboot_requested (env : TaskEnv) (device : Device) :
  let task := trace (reboot_ipphone env device) in
  let requests :=
    count (is_get_to (reboot_url (d_ip device) (d_user device) (d_pass device))) task in
  (appended task = [] -> requests = 0%nat) /\
  (forall entry, In entry (appended task) ->
     appended task = [entry] /\
     (row_status (entry_callstate entry) = "Rebooted" <-> requests = 1%nat)).
Proof.
  intros task requests. subst task requests. unfold count.
  destruct (task_entry_and_requests env device)
    as [[Happ Hgets]|(uptime & callstate & Happ & Hgets)]; rewrite Happ, Hgets.
  - split; [reflexivity|]. intros entry [].
  - split; [discriminate|]. intros entry [<-|[]]. split; [reflexivity|].
    cbn [entry_callstate snd]. rewrite row_status_rebooted_iff.
    destruct (String.eqb_spec callstate IDLE) as [->|Hne].
    + split; reflexivity.
    + split; [intros H; now destruct Hne|discriminate].
Qed.

(** ** Saving the report *)

(** X10: when the report directory is there or can be made, a failure to
    open or write the report file is caught: the one write to
    logs/<today>_ipphone_report.html was attempted with the report as
    content, the error goes to the log, and the function returns normally
    when that line is logged. *)
Theorem save_failure_is_only_logged
    (fs : FileSystem) (log_entries : list log_entry) (e : exn) :
  logs_dir_ready fs = true ->
  fs_write fs = Raise e ->
  (logged (save_error_text e) = true ->
   result (save_daily_html_log fs log_entries) = Ok tt) /\
  filter is_write_file (trace (save_daily_html_log fs log_entries))
    = [EWriteFile (report_path fs) (build_html_report log_entries)] /\
  In (EPrint (save_error_text e)) (trace (save_daily_html_log fs log_entries)).
Proof.
  intros Hdir Hwrite. unfold logs_dir_ready in Hdir.
  unfold save_daily_html_log, logged. fold (report_path fs). rewrite Hwrite.
  pose proof (write_log_only_prints (save_error_text e)) as Hprints.
  pose proof (write_log_line (save_error_text e)) as Hline.
  unfold save_error_text in *.
  destruct (fs_logs_exists fs); cbn [negb];
    [|destruct (fs_makedirs fs) as [[]|e0]; [|discriminate]];
    unfold try_except, bind, perform, ret; cbn [fst snd app];
    destruct (write_log _) as [t r]; unfold trace, result in *; cbn [fst snd app] in *;
    (split; [destruct r as [[]|e']; [reflexivity|discriminate]|]);
    cbn [filter is_write_file];
    rewrite (prints_filtered is_write_file t (fun _ => eq_refl) Hprints);
    (split; [reflexivity|]); cbn [In]; auto.
Qed.

(** ** The script after the configuration *)

(** The loader reads the file and, when the file is missing or malformed,
    logs the error. *)
Lemma read_ipphones_from_csv_cases (file : outcome (list (outcome csv_row)))
    (file_path : string) :
  (exists devices, read_ipphones_from_csv file file_path = ([EReadCsv file_path], Ok devices))
  \/
  (exists e, read_ipphones_from_csv file file_path
             = log_then [EReadCsv file_path] (csv_error_text e) []).
Proof.
  destruct (missing_or_malformed file) eqn:Hbad.
  - right. now apply read_ipphones_from_csv_empty.
  - left. destruct file as [reader|e]; [|discriminate].
    cbn [missing_or_malformed] in Hbad. apply negb_false_iff in Hbad.
    destruct (read_rows_good reader [] Hbad) as (devices & Hread & _).
    exists devices. unfold read_ipphones_from_csv, try_except, bind, perform.
    rewrite Hread. reflexivity.
Qed.

Lemma task_trace_kind (env : TaskEnv) (device : Device) :
  forallb task_event (trace (reboot_ipphone env device)) = true.
Proof.
  destruct (is_ok (env_ping env)) eqn:Hping.
  - destruct (env_chrome env) as [driver|e] eqn:Hchrome.
    + destruct (status_trace_kind driver (d_ip device) (d_user device) (d_pass device)
                  (d_name device)) as (_ & _ & _ & Hkind).
      destruct (get_ipphone_status driver _ _ _ _) as [t [[u c]|e]] eqn:Heq;
        unfold trace in Hkind; cbn [fst] in Hkind.
      * rewrite (reboot_ipphone_reachable env device driver t u c Hping Hchrome Heq).
        destruct (decide_trace_kind driver device c) as (d & -> & _ & _ & Hd & _).
        unfold trace. cbn [fst]. rewrite !forallb_app, Hkind, Hd. reflexivity.
      * rewrite (reboot_ipphone_status_raises env device driver t e Hping Hchrome Heq).
        unfold trace. cbn [fst]. rewrite forallb_app, Hkind. reflexivity.
    + now rewrite (reboot_ipphone_no_driver env device e Hping Hchrome).
  - rewrite (reboot_ipphone_unreachable env device Hping).
    unfold log_then, bind, emit.
    pose proof (write_log_only_prints (unreachable_text device)) as Hprints.
    apply prints_task_events in Hprints.
    destruct (write_log (unreachable_text device)) as [t [[]|e]];
      unfold trace, result in *; cbn [fst snd app forallb task_event] in *;
      rewrite ?forallb_app, Hprints; reflexivity.
Qed.

Lemma pool_kind (schedule : list nat) (envs : nat -> TaskEnv) (ip_phones : list Device) :
  Forall (fun te => task_event (snd te) = true)
         (trace (executor_map schedule envs ip_phones)).
Proof.
  unfold executor_map, trace. cbn [fst].
  apply (Permutation_Forall (Permutation_sym (schedule_merge_perm schedule _))).
  generalize 0%nat. induction ip_phones as [|device rest IH]; intros k; [constructor|].
  cbn [task_traces concat]. apply Forall_app. split; [|apply IH].
  cbn [in_thread fst]. apply Forall_forall. intros te Hin.
  apply in_map_iff in Hin. destruct Hin as (e & <- & Hin). cbn [snd].
  pose proof (task_trace_kind (envs k) device) as Hkind.
  rewrite forallb_forall in Hkind. now apply Hkind.
Qed.

Lemma filter_absent {A} (p : A -> bool) (l : list A) :
  Forall (fun x => p x = false) l -> filter p l = [].
Proof.
  induction 1 as [|x l Hx _ IH]; [reflexivity|]. cbn [filter]. now rewrite Hx.
Qed.

Lemma on_main_events (t : list event) : map snd (on_main t) = t.
Proof. unfold on_main. rewrite map_map. cbn [snd]. apply map_id. Qed.

Lemma trace_pair {E A} (t : list E) (r : outcome A) : trace (t, r) = t.
Proof. reflexivity. Qed.

Lemma result_pair {E A} (t : list E) (r : outcome A) : result (t, r) = r.
Proof. reflexivity. Qed.

Lemma smtp_not_task (e : event) : task_event e = true -> is_smtp e = false.
Proof. now destruct e. Qed.

Lemma write_not_task (e : event) : task_event e = true -> is_write_file e = false.
Proof. now destruct e. Qed.

(** *** Computations that open no SMTP session *)

Lemma smtp_free_bind {A B} (m : M tevent A) (k : A -> M tevent B) :
  smtp_free m -> (forall a, smtp_free (k a)) -> smtp_free (bind m k).
Proof.
  unfold smtp_free, bind, trace. destruct m as [t [a|e]]; cbn [fst]; intros Hm Hk; [|exact Hm].
  specialize (Hk a). destruct (k a) as [t' r]. cbn [fst] in *.
  unfold tevent in *. now rewrite map_app, filter_app, Hm, Hk.
Qed.

Lemma smtp_free_main {A} (m : M event A) :
  filter is_smtp (trace m) = [] -> smtp_free (in_thread MainThread m).
Proof.
  unfold smtp_free, in_thread, trace. cbn [fst]. intros Hm.
  now rewrite map_map, map_id.
Qed.

Lemma loader_opens_no_session (file : outcome (list (outcome csv_row))) (file_path : string) :
  filter is_smtp (trace (read_ipphones_from_csv file file_path)) = [].
Proof.
  destruct (read_ipphones_from_csv_cases file file_path) as [(ds & ->)|(e & ->)];
    [reflexivity|].
  rewrite log_then_trace, filter_app, write_log_filtered by reflexivity. reflexivity.
Qed.

Lemma save_opens_no_session (fs : FileSystem) (log_entries : list log_entry) :
  filter is_smtp (trace (save_daily_html_log fs log_entries)) = [].
Proof.
  unfold save_daily_html_log.
  assert (Hlog : forall message t r, write_log message = (t, r) -> filter is_smtp t = []).
  { intros message t r Heq. pose proof (write_log_filtered is_smtp message (fun _ => eq_refl)).
    now rewrite Heq in H. }
  destruct (fs_logs_exists fs); cbn [negb];
    [|destruct (fs_makedirs fs) as [[]|e0]; [|reflexivity]];
    destruct (fs_write fs) as [[]|e1];
    unfold try_except, bind, perform, ret, trace; cbn [fst snd app];
    repeat match goal with
           | |- context [write_log ?m] =>
               let H := fresh "Hw" in
               destruct (write_log m) as [? [[]|?]] eqn:H; apply Hlog in H; cbn [fst snd app]
           end;
    cbn [filter is_smtp]; rewrite ?filter_app;
    repeat match goal with H : filter is_smtp _ = [] |- _ => rewrite H; clear H end;
    reflexivity.
Qed.

(** X16: with the send flag off the script never opens an SMTP session,
    whatever the device file, the devices, the file system and the console
    do. *)
Theorem no_mail_when_flag_is_off (w : World) (EMAIL_CONFIG : EmailConfig) :
  send_if_error EMAIL_CONFIG = false ->
  filter is_smtp (map snd (trace (fleet_pass w EMAIL_CONFIG))) = [].
Proof.
  intros Hflag. change (smtp_free (fleet_pass w EMAIL_CONFIG)). unfold fleet_pass.
  rewrite Hflag. cbv zeta.
  apply smtp_free_bind; [apply smtp_free_main, loader_opens_no_session|intros ip_phones].
  apply smtp_free_bind;
    [apply smtp_free_main, write_log_filtered; reflexivity|intros _].
  apply smtp_free_bind;
    [unfold ThreadPoolExecutor; destruct (_ <=? 0); reflexivity|intros _].
  apply smtp_free_bind.
  { unfold smtp_free. apply filter_absent, Forall_map.
    eapply Forall_impl; [|apply pool_kind]. intros te Hte. now apply smtp_not_task. }
  intros _. apply smtp_free_bind;
    [apply smtp_free_main, write_log_filtered; reflexivity|intros _].
  apply smtp_free_bind; [apply smtp_free_main, save_opens_no_session|intros _].
  apply smtp_free_bind; reflexivity.
Qed.

(** *** The script on a console that prints every line *)

Section PrintingScript.

Hypothesis every_line : prints_every_line.

Lemma save_daily_html_log_eq (fs : FileSystem) (log_entries : list log_entry) :
  save_daily_html_log fs log_entries =
  if fs_logs_exists fs then (write_events fs log_entries, Ok tt)
  else match fs_makedirs fs with
       | Ok _ => (EMakedirs "logs" :: write_events fs log_entries, Ok tt)
       | Raise e => ([EMakedirs "logs"], Raise e)
       end.
Proof.
  unfold save_daily_html_log, write_events, report_path.
  destruct (fs_logs_exists fs); cbn [negb].
  - destruct (fs_write fs); unfold try_except, bind, perform, ret; cbn [fst snd app];
      rewrite (write_log_eq every_line); reflexivity.
  - destruct (fs_makedirs fs); [|reflexivity].
    destruct (fs_write fs); unfold try_except, bind, perform, ret; cbn [fst snd app];
      rewrite (write_log_eq every_line); reflexivity.
Qed.

Lemma loader_cases (file : outcome (list (outcome csv_row))) (file_path : string) :
  (exists devices, read_ipphones_from_csv file file_path = ([EReadCsv file_path], Ok devices))
  \/
  (exists e, read_ipphones_from_csv file file_path
             = ([EReadCsv file_path; CSV_ERROR e], Ok [])).
Proof.
  destruct (read_ipphones_from_csv_cases file file_path) as [Hgood|[e Hbad]];
    [now left|right].
  exists e. rewrite Hbad. unfold log_then. rewrite (write_log_eq every_line). reflexivity.
Qed.

Lemma fleet_pass_empty (w : World) (EMAIL_CONFIG : EmailConfig) (t0 : list event) :
  read_ipphones_from_csv (w_csv w) "devices.csv" = (t0, Ok []) ->
  fleet_pass w EMAIL_CONFIG = ((on_main t0 ++ [STARTING])%list, Raise NO_WORKERS).
Proof.
  intros Hload. unfold fleet_pass. rewrite Hload, (write_log_eq every_line). reflexivity.
Qed.

(** The script on a fleet that is not empty: the pool, then the report,
    then the mail when the flag is on. *)
Lemma fleet_pass_nonempty (w : World) (EMAIL_CONFIG : EmailConfig)
    (t0 : list event) (ip_phones : list Device) :
  read_ipphones_from_csv (w_csv w) "devices.csv" = (t0, Ok ip_phones) ->
  ip_phones <> [] ->
  let pool := trace (executor_map (w_schedule w) (w_task w) ip_phones) in
  let log_entries := log_entries_of pool in
  let before := (on_main t0 ++ STARTING :: pool ++ [ATTEMPTED])%list in
  let saved := save_daily_html_log (w_fs w) log_entries in
  let mailed := send_error_email (w_smtp w) log_entries 2 300 in
  fleet_pass w EMAIL_CONFIG =
  match result saved with
  | Raise e => ((before ++ on_main (trace saved))%list, Raise e)
  | Ok _ =>
      if send_if_error EMAIL_CONFIG then
        ((before ++ on_main (trace saved) ++ on_main (trace mailed))%list,
         match result mailed with
         | Ok _ => Ok Finished
         | Raise e => Raise e
         end)
      else ((before ++ on_main (trace saved))%list, Ok Finished)
  end.
Proof.
  intros Hload Hne pool log_entries before saved mailed.
  subst pool log_entries before saved mailed.
  unfold fleet_pass. rewrite Hload, !(write_log_eq every_line).
  destruct ip_phones as [|device rest]; [contradiction|].
  set (ds := device :: rest).
  unfold trace, result, on_main, STARTING, ATTEMPTED.
  unfold bind, in_thread, emit, ret, executor_map, ThreadPoolExecutor, lift.
  cbn [fst snd map].
  replace (Z.of_nat (length ds) <=? 0) with false
    by (symmetry; apply Z.leb_gt; subst ds; cbn [length]; lia).
  unfold ret.
  destruct (save_daily_html_log (w_fs w) _) as [ts [u|e]];
    destruct (send_if_error EMAIL_CONFIG);
    try destruct (send_error_email (w_smtp w) _ 2 300) as [tm [u'|e']];
    cbn [fst snd map app]; repeat (rewrite <- app_assoc; cbn [app]);
    rewrite ?app_nil_r; reflexivity.
Qed.

(** What precedes the report holds no operation that tasks cannot perform,
    apart from reading the device file. *)
Lemma before_report_quiet (p : event -> bool) (w : World)
    (t0 : list event) (ip_phones : list Device) :
  (forall e, task_event e = true -> p e = false) ->
  (forall path, p (EReadCsv path) = false) ->
  read_ipphones_from_csv (w_csv w) "devices.csv" = (t0, Ok ip_phones) ->
  filter p (map snd (on_main t0 ++ STARTING
                       :: trace (executor_map (w_schedule w) (w_task w) ip_phones)
                       ++ [ATTEMPTED])%list) = [].
Proof.
  intros Htask Hcsv Hload. apply filter_absent.
  rewrite map_app, on_main_events. cbn [map]. rewrite map_app. cbn [map snd STARTING ATTEMPTED].
  apply Forall_app. split.
  - destruct (loader_cases (w_csv w) "devices.csv")
      as [(ds & Heq)|(e & Heq)]; rewrite Heq in Hload; injection Hload as <- _;
      repeat constructor; try apply Hcsv; now apply Htask.
  - constructor; [now apply Htask|]. apply Forall_app. split.
    + apply Forall_map. eapply Forall_impl; [|apply pool_kind].
      intros te Hte. now apply Htask.
    + repeat constructor. now apply Htask.
Qed.

(** The notifier as the script calls it: one attempt, and a second one
    five minutes later when the first fails; it returns normally. *)
Lemma send_error_email_default (smtp : Z -> outcome unit) (log_entries : list log_entry) :
  let mail := ESmtp (get_email_subject log_entries) (build_html_report log_entries) in
  result (send_error_email smtp log_entries 2 300) = Ok tt /\
  filter is_write_file (trace (send_error_email smtp log_entries 2 300)) = [] /\
  filter is_smtp (trace (send_error_email smtp log_entries 2 300))
    = if is_ok (smtp 1) then [mail] else [mail; mail].
Proof.
  intros mail. subst mail. unfold send_error_email, py_range.
  change (Z.to_nat (2 + 1 - 1)) with 2%nat. cbn [range_from Z.add Pos.add].
  cbn [send_attempts]. unfold sleep.
  change (1 <? 2) with true. change (2 <? 2) with false. change (300 <? 0) with false.
  destruct (smtp 1) as [u|e1].
  - unfold try_except, bind, perform, emit, ret, result, trace.
    rewrite !(write_log_eq every_line).
    cbn [fst snd app filter is_smtp is_write_file is_ok]. repeat split.
  - destruct (smtp 2) as [u|e2];
      unfold try_except, bind, perform, emit, ret, result, trace;
      rewrite !(write_log_eq every_line);
      cbn [fst snd app filter is_smtp is_write_file is_ok]; repeat split.
Qed.

Lemma send_attempts_success_step (smtp : Z -> outcome unit) (subject html : string)
    (retries delay attempt : Z) (rest : list Z) :
  is_ok (smtp attempt) = true ->
  send_attempts smtp subject html retries delay (attempt :: rest) =
  ([ESmtp subject html;
    EPrint ("[SUCCESS] Email sent successfully on attempt " ++ str_of_Z attempt)], Ok tt).
Proof.
  intros Hok. cbn [send_attempts]. destruct (smtp attempt) as [u|e]; [|discriminate].
  unfold try_except, bind, perform, ret. rewrite (write_log_eq every_line). reflexivity.
Qed.

Lemma send_attempts_first_success (smtp : Z -> outcome unit) (subject html : string)
    (retries delay : Z) :
  0 <= delay ->
  forall (m n : nat) (lo : Z),
    (m < n)%nat ->
    lo + Z.of_nat m <= retries ->
    (forall attempt, lo <= attempt < lo + Z.of_nat m -> is_ok (smtp attempt) = false) ->
    is_ok (smtp (lo + Z.of_nat m)) = true ->
    result (send_attempts smtp subject html retries delay (range_from lo n)) = Ok tt /\
    filter is_delivery (trace (send_attempts smtp subject html retries delay (range_from lo n)))
    = attempts_with_pauses subject html delay (S m).
Proof.
  intros Hdelay. induction m as [|m IH]; intros n lo Hlt Hle Hfail Hok.
  - destruct n as [|n]; [lia|]. cbn [range_from]. rewrite Z.add_0_r in Hok.
    rewrite (send_attempts_success_step smtp subject html retries delay lo _ Hok).
    split; reflexivity.
  - destruct n as [|n]; [lia|]. cbn [range_from].
    assert (Hlo : is_ok (smtp lo) = false) by (apply Hfail; lia).
    destruct (smtp lo) as [u|e] eqn:Hsmtp; [discriminate|].
    rewrite (send_attempts_failed_step every_line smtp subject html retries delay lo _ e
               Hsmtp Hdelay).
    destruct (IH n (lo + 1)) as [Hres Htr].
    + lia.
    + lia.
    + intros attempt Hrange. apply Hfail. lia.
    + replace (lo + 1 + Z.of_nat m) with (lo + Z.of_nat (S m)) by lia. exact Hok.
    + destruct (send_attempts smtp subject html retries delay (range_from (lo + 1) n))
        as [t' r].
      unfold result, trace in *. cbn [fst snd] in *. split; [exact Hres|].
      assert (Hretry : (lo <? retries) = true) by (apply Z.ltb_lt; lia).
      rewrite Hretry. cbn [filter is_delivery send_failed_line retry_line app].
      rewrite Htr. reflexivity.
Qed.

End PrintingScript.

Ltac open_fleet Hprints w cfg t0 ds Hload Hne :=
  rewrite (fleet_pass_nonempty Hprints w cfg t0 ds Hload Hne);
  pose proof (before_report_quiet Hprints is_write_file w t0 ds write_not_task
                (fun _ => eq_refl) Hload) as Hbw;
  pose proof (before_report_quiet Hprints is_smtp w t0 ds smtp_not_task
                (fun _ => eq_refl) Hload) as Hbs;
  remember (on_main t0 ++ STARTING
              :: trace (executor_map (w_schedule w) (w_task w) ds)
              ++ [ATTEMPTED])%list as before eqn:Hbefore.

(** X11: on a console that prints every line and a fleet that is not
    empty, when the logs directory is missing and cannot be made,
    os.makedirs raises outside every try: the script ends with that
    exception after all device tasks have run, and neither writes the
    report nor sends the mail, whatever the send flag is. *)
Theorem missing_logs_dir_stops_the_script
    (w : World) (EMAIL_CONFIG : EmailConfig) (ip_phones : list Device) (e : exn) :
  prints_every_line ->
  result (read_ipphones_from_csv (w_csv w) "devices.csv") = Ok ip_phones ->
  ip_phones <> [] ->
  fs_logs_exists (w_fs w) = false ->
  fs_makedirs (w_fs w) = Raise e ->
  result (fleet_pass w EMAIL_CONFIG) = Raise e /\
  filter is_write_file (map snd (trace (fleet_pass w EMAIL_CONFIG))) = [] /\
  filter is_smtp (map snd (trace (fleet_pass w EMAIL_CONFIG))) = [] /\
  log_entries_of (trace (fleet_pass w EMAIL_CONFIG))
    = log_entries_of (trace (executor_map (w_schedule w) (w_task w) ip_phones)).
Proof.
  intros Hprints Hres Hne Hexists Hmk.
  destruct (read_ipphones_from_csv (w_csv w) "devices.csv") as [t0 r] eqn:Hload.
  unfold result in Hres. cbn [snd] in Hres. subst r.
  open_fleet Hprints w EMAIL_CONFIG t0 ip_phones Hload Hne.
  rewrite (save_daily_html_log_eq Hprints), Hexists, Hmk. rewrite result_pair. cbv iota.
  rewrite !result_pair, !trace_pair, !map_app, !filter_app.
  unfold tevent in *. rewrite Hbw, Hbs.
  repeat split.
  subst before. unfold log_entries_of. rewrite !map_app, on_main_events. cbn [map snd STARTING].
  rewrite map_app. cbn [map snd ATTEMPTED on_main].
  rewrite !appended_app. cbn [appended]. rewrite appended_app.
  destruct (loader_cases Hprints (w_csv w) "devices.csv")
    as [(ds & Heq)|(e' & Heq)]; rewrite Heq in Hload; injection Hload as <- _;
    cbn [appended app CSV_ERROR]; rewrite !app_nil_r; reflexivity.
Qed.

(** X17: on a console that prints every line, with the send flag on, a
    fleet that is not empty and a logs directory that is there or can be
    made, the script ends normally; it writes the report once, to
    logs/<today>_ipphone_report.html, and mails the very same HTML, with
    the subject computed from the entries of the run, in one SMTP attempt,
    or two when the first fails; this holds also when writing the file
    fails and when no entry is an error. *)
Theorem report_saved_then_mailed
    (w : World) (EMAIL_CONFIG : EmailConfig) (ip_phones : list Device) :
  prints_every_line ->
  result (read_ipphones_from_csv (w_csv w) "devices.csv") = Ok ip_phones ->
  ip_phones <> [] ->
  logs_dir_ready (w_fs w) = true ->
  send_if_error EMAIL_CONFIG = true ->
  let log_entries :=
    log_entries_of (trace (executor_map (w_schedule w) (w_task w) ip_phones)) in
  let html := build_html_report log_entries in
  let mail := ESmtp (get_email_subject log_entries) html in
  result (fleet_pass w EMAIL_CONFIG) = Ok Finished /\
  filter is_write_file (map snd (trace (fleet_pass w EMAIL_CONFIG)))
    = [EWriteFile (report_path (w_fs w)) html] /\
  filter is_smtp (map snd (trace (fleet_pass w EMAIL_CONFIG)))
    = if is_ok (w_smtp w 1) then [mail] else [mail; mail].
Proof.
  intros Hprints Hres Hne Hdir Hflag log_entries html mail.
  destruct (read_ipphones_from_csv (w_csv w) "devices.csv") as [t0 r] eqn:Hload.
  unfold result in Hres. cbn [snd] in Hres. subst r.
  open_fleet Hprints w EMAIL_CONFIG t0 ip_phones Hload Hne.
  fold log_entries. rewrite Hflag.
  destruct (send_error_email_default Hprints (w_smtp w) log_entries)
    as (Hmres & Hmwrite & Hmsmtp).
  fold html mail in Hmsmtp.
  assert (Hsave : result (save_daily_html_log (w_fs w) log_entries) = Ok tt /\
                  filter is_write_file (trace (save_daily_html_log (w_fs w) log_entries))
                    = [EWriteFile (report_path (w_fs w)) html] /\
                  filter is_smtp (trace (save_daily_html_log (w_fs w) log_entries)) = []).
  { rewrite (save_daily_html_log_eq Hprints). unfold logs_dir_ready in Hdir.
    unfold write_events.
    destruct (fs_logs_exists (w_fs w)); [|destruct (fs_makedirs (w_fs w)); [|discriminate]];
      destruct (fs_write (w_fs w)); repeat split. }
  destruct Hsave as (Hsres & Hswrite & Hssmtp).
  rewrite Hsres. cbv iota. rewrite Hmres. cbv iota. rewrite !trace_pair, result_pair.
  rewrite !map_app, !filter_app, !on_main_events.
  unfold tevent in *. rewrite Hbw, Hbs.
  rewrite Hswrite, Hssmtp, Hmwrite, Hmsmtp. repeat split.
Qed.

(** ** The notifier: success, no attempts, negative cooldown *)

(** X12: on a console that prints every line, the notifier stops at the
    first attempt that succeeds: when the attempts before number [k] fail
    and attempt [k] succeeds, it makes exactly [k] attempts, pauses for the
    cooldown between them, makes no attempt after the success and returns
    normally. *)
Theorem send_stops_at_first_success
    (smtp : Z -> outcome unit) (log_entries : list log_entry) (retries delay k : Z) :
  prints_every_line ->
  0 <= delay ->
  1 <= k <= retries ->
  (forall attempt, 1 <= attempt < k -> is_ok (smtp attempt) = false) ->
  is_ok (smtp k) = true ->
  let run := send_error_email smtp log_entries retries delay in
  result run = Ok tt /\
  filter is_delivery (trace run)
    = attempts_with_pauses (get_email_subject log_entries) (build_html_report log_entries)
        delay (Z.to_nat k) /\
  count is_smtp (trace run) = Z.to_nat k.
Proof.
  intros Hprints Hdelay Hk Hfail Hok run. subst run. unfold send_error_email, py_range.
  replace (retries + 1 - 1) with retries by lia.
  destruct (send_attempts_first_success Hprints smtp (get_email_subject log_entries)
              (build_html_report log_entries) retries delay Hdelay
              (Z.to_nat (k - 1)) (Z.to_nat retries) 1) as [Hres Htr].
  - lia.
  - lia.
  - intros attempt Hrange. apply Hfail. lia.
  - replace (1 + Z.of_nat (Z.to_nat (k - 1))) with k by lia. exact Hok.
  - replace (S (Z.to_nat (k - 1))) with (Z.to_nat k) in Htr by lia.
    split; [exact Hres|]. split; [exact Htr|].
    unfold count. rewrite <- (filter_narrower is_smtp is_delivery), Htr.
    + apply attempts_counted.
    + intros [] Hx; (discriminate || reflexivity).
Qed.

(** X13: with a retry count of zero or less the loop body never runs: the
    notifier makes no delivery attempt, logs nothing and returns normally. *)
Theorem send_without_retries_does_nothing
    (smtp : Z -> outcome unit) (log_entries : list log_entry) (retries delay : Z) :
  retries <= 0 ->
  send_error_email smtp log_entries retries delay = ([], Ok tt).
Proof.
  intros Hretries. unfold send_error_email, py_range.
  replace (Z.to_nat (retries + 1 - 1)) with 0%nat by lia. reflexivity.
Qed.

(** X14: on a console that prints every line, with a negative cooldown and
    at least two attempts allowed, a first failed attempt makes the
    notifier raise: time.sleep rejects the negative length inside the
    except block, so the ValueError leaves send_error_email after one
    attempt only. *)
Theorem negative_cooldown_escapes_the_notifier
    (smtp : Z -> outcome unit) (log_entries : list log_entry) (retries delay : Z) :
  prints_every_line ->
  2 <= retries ->
  delay < 0 ->
  is_ok (smtp 1) = false ->
  let run := send_error_email smtp log_entries retries delay in
  result run = Raise (mkExn ValueError "sleep length must be non-negative") /\
  count is_smtp (trace run) = 1%nat.
Proof.
  intros Hprints Hretries Hdelay Hfail run. subst run. unfold send_error_email, py_range.
  replace (retries + 1 - 1) with retries by lia.
  destruct (Z.to_nat retries) as [|n] eqn:Hn; [lia|].
  cbn [range_from send_attempts]. destruct (smtp 1) as [u|e]; [discriminate|].
  unfold sleep.
  replace (1 <? retries) with true by (symmetry; apply Z.ltb_lt; lia).
  replace (delay <? 0) with true by (symmetry; apply Z.ltb_lt; lia).
  unfold try_except, bind, perform, ret. rewrite !(write_log_eq Hprints).
  split; reflexivity.
Qed.

(** ** The rows of the report *)

Lemma string_app_assoc (a b c : string) : (a ++ b) ++ c = a ++ b ++ c.
Proof. induction a as [|x a IH]; [reflexivity|]. cbn. now rewrite IH. Qed.

Lemma prefix_app (a b : string) : String.prefix a (a ++ b) = true.
Proof.
  induction a as [|x a IH].
  - destruct b; reflexivity.
  - cbn. destruct (ascii_dec x x) as [_|Hne]; [exact IH|now destruct Hne].
Qed.

Lemma str_in_middle (needle before after : string) :
  str_in needle (before ++ needle ++ after) = true.
Proof.
  induction before as [|x before IH].
  - cbn [append]. pose proof (prefix_app needle after) as Hprefix.
    destruct (needle ++ after); cbn [str_in]; now rewrite Hprefix.
  - cbn [append str_in]. rewrite IH. now destruct (String.prefix needle _).
Qed.

Lemma html_rows_nth (log_entries : list log_entry) :
  forall (idx : Z) (k : nat) (entry : log_entry),
    nth_error log_entries k = Some entry ->
    exists before after,
      html_rows idx log_entries = before ++ html_row (idx + Z.of_nat k) entry ++ after.
Proof.
  induction log_entries as [|first rest IH]; intros idx k entry Hnth.
  - destruct k; discriminate.
  - destruct k as [|k].
    + injection Hnth as ->. exists EmptyString, (html_rows (idx + 1) rest).
      rewrite Z.add_0_r. reflexivity.
    + destruct (IH (idx + 1) k entry Hnth) as (before & after & Hrows).
      exists (html_row idx first ++ before), after.
      cbn [html_rows]. rewrite Hrows, string_app_assoc.
      now replace (idx + 1 + Z.of_nat k) with (idx + Z.of_nat (S k)) by lia.
Qed.

Lemma html_row_text (idx : Z) (ip name uptime callstate : string) :
  exists colour label,
    colour_and_label callstate colour label /\
    html_row idx (ip, name, uptime, callstate)
    = report_row idx ip name uptime callstate colour label.
Proof.
  unfold html_row, row_class, colour_and_label, report_row, row_style_of.
  destruct (String.eqb_spec callstate "Unreachable") as [->|Hu].
  { exists "#ff9999", "Unreachable". split; [now left|reflexivity]. }
  destruct (String.eqb_spec callstate "N/A") as [->|Hn].
  { exists "#ffcccc", "Error". split; [right; now left|reflexivity]. }
  destruct (String.eqb_spec callstate "0 Active Calls") as [->|Hi]; cbn [negb].
  - exists "#ccffcc", "Rebooted". split; [now repeat right|reflexivity].
  - exists "#fff8b3", "Skipped". split; [right; right; left; now repeat split|reflexivity].
Qed.

(** X9: for the entry at each position of log_entries the report holds
    the row of line 169: the position counted from 1, then the ip, the
    name, the uptime and the call-state of the entry as they were recorded,
    then the label of the call-state, in a row of the colour of that label
    (Unreachable #ff9999, Error #ffcccc, Skipped #fff8b3, Rebooted
    #ccffcc). *)
Theorem report_has_a_numbered_row_for_each_entry
    (log_entries : list log_entry) (k : nat) (ip name uptime callstate : string) :
  nth_error log_entries k = Some (ip, name, uptime, callstate) ->
  exists colour label,
    colour_and_label callstate colour label /\
    str_in (report_row (1 + Z.of_nat k) ip name uptime callstate colour label)
           (build_html_report log_entries) = true.
Proof.
  intros Hnth.
  destruct (html_rows_nth log_entries 1 k _ Hnth) as (before & after & Hrows).
  destruct (html_row_text (1 + Z.of_nat k) ip name uptime callstate)
    as (colour & label & Hclass & Hrow).
  exists colour, label. split; [exact Hclass|].
  unfold build_html_report. rewrite Hrows, Hrow, !string_app_assoc, <- string_app_assoc.
  apply str_in_middle.
Qed.

(** ** The entries of a run *)

Lemma task_traces_entries_bounds (envs : nat -> TaskEnv) (ip_phones : list Device) :
  forall i,
    (returning envs i ip_phones
     <= length (log_entries_of (concat (task_traces envs i ip_phones)))
     <= length ip_phones)%nat.
Proof.
  induction ip_phones as [|device rest IH]; intros i; [cbn; lia|].
  cbn [task_traces concat returning length]. rewrite log_entries_app, length_app.
  cbn [in_thread fst]. rewrite log_entries_tagged. specialize (IH (S i)).
  fold (trace (reboot_ipphone (envs i) device)).
  destruct (is_ok (result (reboot_ipphone (envs i) device))) eqn:Hret.
  - destruct (returned_task_entry (envs i) device Hret) as (u & c & ->). cbn [length]. lia.
  - destruct (task_entries (envs i) device) as [->|(u & c & ->)]; cbn [length]; lia.
Qed.

Lemma task_traces_entries (envs : nat -> TaskEnv) (ip_phones : list Device) :
  prints_every_line ->
  forall i,
    length (log_entries_of (concat (task_traces envs i ip_phones)))
    = recording envs i ip_phones.
Proof.
  intros Hprints. induction ip_phones as [|device rest IH]; intros i; [reflexivity|].
  cbn [task_traces concat recording]. rewrite log_entries_app, length_app, IH.
  cbn [in_thread fst]. rewrite log_entries_tagged.
  fold (trace (reboot_ipphone (envs i) device)).
  unfold records_entry. destruct (is_ok (env_ping (envs i))) eqn:Hping; cbn [negb orb].
  - destruct (env_chrome (envs i)) as [driver|e] eqn:Hchrome; cbn [is_ok].
    + destruct (returned_task_entry (envs i) device) as (u & c & ->); [|reflexivity].
      rewrite (task_returns (envs i) device Hprints); [reflexivity|].
      right. now rewrite Hchrome.
    + now rewrite (reboot_ipphone_no_driver (envs i) device e Hping Hchrome).
  - destruct (returned_task_entry (envs i) device) as (u & c & ->); [|reflexivity].
    rewrite (task_returns (envs i) device Hprints); [reflexivity|now left].
Qed.

(** X15: whatever the interleaving of the pool and whatever the console
    does, a task records at most one entry, and exactly one when it
    returns: the entries of the run are at least as many as the tasks that
    returned and at most as many as the devices.  On a console that prints
    every line the entries are one for each device that did not answer the
    ping or whose browser started, and none for the others. *)
Theorem entries_between_returned_tasks_and_devices
    (schedule : list nat) (envs : nat -> TaskEnv) (ip_phones : list Device) :
  let entries := log_entries_of (trace (executor_map schedule envs ip_phones)) in
  (returning envs 0 ip_phones <= length entries <= length ip_phones)%nat /\
  (prints_every_line -> length entries = recording envs 0 ip_phones).
Proof.
  intros entries. subst entries.
  rewrite (Permutation_length (executor_map_entries schedule envs ip_phones)).
  split; [apply task_traces_entries_bounds|].
  intros Hprints. now apply task_traces_entries.
Qed.

Lemma task_traces_entry_device (envs : nat -> TaskEnv) (ip_phones : list Device)
    (entry : log_entry) :
  forall i,
    In entry (log_entries_of (concat (task_traces envs i ip_phones))) ->
    exists device, In device ip_phones /\ entry_for device entry.
Proof.
  induction ip_phones as [|device rest IH]; intros i Hin; [destruct Hin|].
  cbn [task_traces concat] in Hin. rewrite log_entries_app in Hin.
  apply in_app_or in Hin. destruct Hin as [Hin|Hin].
  - cbn [in_thread fst] in Hin. rewrite log_entries_tagged in Hin.
    fold (trace (reboot_ipphone (envs i) device)) in Hin.
    destruct (task_entries (envs i) device) as [Happ|(uptime & callstate & Happ)];
      rewrite Happ in Hin; [destruct Hin|].
    destruct Hin as [<-|[]]. exists device. split; [now left|].
    now exists uptime, callstate.
  - destruct (IH (S i) Hin) as (d & Hd & Hentry). exists d. split; [now right|exact Hentry].
Qed.

(** X18: every entry of the run, hence every row of the report, carries
    the address and the name of a device of the device list, whatever the
    interleaving of the pool and whatever the devices and the console
    answer. *)
Theorem every_entry_is_of_a_listed_device
    (schedule : list nat) (envs : nat -> TaskEnv) (ip_phones : list Device)
    (entry : log_entry) :
  In entry (log_entries_of (trace (executor_map schedule envs ip_phones))) ->
  exists device, In device ip_phones /\ entry_for device entry.
Proof.
  intros Hin.
  apply (Permutation_in entry (executor_map_entries schedule envs ip_phones)) in Hin.
  exact (task_traces_entry_device envs ip_phones entry 0%nat Hin).
Qed.

(** ** The subject of the mail and the labels of the report *)

Lemma row_status_error_iff (callstate : string) :
  row_status callstate = "Error" <-> callstate = "N/A".
Proof.
  unfold row_status, row_class.
  destruct (String.eqb_spec callstate "Unreachable") as [->|_]; [split; discriminate|].
  destruct (String.eqb_spec callstate "N/A") as [->|Hne]; [split; reflexivity|].
  destruct (String.eqb_spec callstate "0 Active Calls") as [->|_]; cbn;
    (split; [discriminate|intros H; now destruct Hne]).
Qed.

Lemma row_status_unreachable_iff (callstate : string) :
  row_status callstate = "Unreachable" <-> callstate = "Unreachable".
Proof.
  unfold row_status, row_class.
  destruct (String.eqb_spec callstate "Unreachable") as [->|Hne]; [split; reflexivity|].
  destruct (String.eqb_spec callstate "N/A") as [->|_]; [split; discriminate|].
  destruct (String.eqb_spec callstate "0 Active Calls") as [->|_]; cbn;
    (split; [discriminate|intros H; now destruct Hne]).
Qed.

(** X19: the subject of the mail agrees with the table it carries: it is
    the Errors Found subject exactly when some row of the report is
    labelled Error or Unreachable, and the All OK subject exactly when
    every row is labelled Skipped or Rebooted. *)
Theorem subject_agrees_with_the_labels (log_entries : list log_entry) :
  (get_email_subject log_entries = SUBJECT_ERRORS <->
   exists entry, In entry log_entries /\
                 (row_status (entry_callstate entry) = "Error" \/
                  row_status (entry_callstate entry) = "Unreachable")) /\
  (get_email_subject log_entries = SUBJECT_OK <->
   forall entry, In entry log_entries ->
                 row_status (entry_callstate entry) = "Skipped" \/
                 row_status (entry_callstate entry) = "Rebooted").
Proof.
  assert (Hlabel : forall c, is_error_state c <->
                             row_status c = "Error" \/ row_status c = "Unreachable").
  { intros c. unfold is_error_state.
    rewrite row_status_error_iff, row_status_unreachable_iff. reflexivity. }
  assert (Hother : forall c, ~ is_error_state c <->
                             row_status c = "Skipped" \/ row_status c = "Rebooted").
  { intros c. rewrite Hlabel. unfold row_status, row_class.
    destruct (c =? "Unreachable")%string; [cbn; intuition discriminate|].
    destruct (c =? "N/A")%string; [cbn; intuition discriminate|].
    destruct (negb (c =? "0 Active Calls")%string); cbn; intuition discriminate. }
  destruct (subject_cases log_entries) as [(Hs & entry & Hin & Herr)|(Hs & Hnone)];
    rewrite Hs; split; split.
  - intros _. exists entry. split; [exact Hin|now apply Hlabel].
  - reflexivity.
  - intros H. now apply subjects_differ in H.
  - intros Hall. apply Hall, Hother in Hin. now destruct Hin.
  - intros H. symmetry in H. now apply subjects_differ in H.
  - intros (entry & Hin & Herr). apply Hlabel in Herr. now apply Hnone in Herr.
  - intros _ entry Hin. now apply Hother, Hnone.
  - reflexivity.
Qed.


End Further.

(** * The properties on concrete runs

    One phone, the Lobby, with the stand-in libraries: an idle page, a busy
    page, a page whose call-state reads "Unreachable", a page with two
    lines, a browser whose reboot request fails, a missing device file; and
    a phone named Kāne on a console whose encoding is cp1252. *)

Import Standin.
Import Scenes.

Lemma C1_witness :
  count (is_get_to lobby_reboot_url) (run_of (reachable_with "idle" always_ok) [0; 0; 1]%nat)
  = 1%nat.
Proof.
  apply (@C1_idle_device_rebooted_once ascii_str bs4 terminal [0; 0; 1]%nat
           (fleet_of (reachable_with "idle" always_ok)) [lobby] 0%nat lobby
           (browser "idle" always_ok) "3 days 01:02:03"); reflexivity.
Defined.

(** C2 on the console whose encoding is cp1252, for the phone named Kāne
    that does not answer the ping: the console rejects the line of line
    120, the bytes 0xC4 0x81 of the name have no reading in cp1252, and the
    task ends with UnicodeDecodeError before it appends its entry. *)
Lemma C2_witness :
  let pool := trace (@executor_map ascii_str bs4 cp1252_console [] (fleet_of silent) [kane]) in
  (exists e, result (@reboot_ipphone ascii_str bs4 cp1252_console silent kane) = Raise e /\
             exn_cls e = UnicodeDecodeError) /\
  appended (thread_events (Worker 0) pool) = [] /\
  log_entries_of pool = [].
Proof.
  destruct (@C2_unreachable_device_lost_when_log_fails ascii_str bs4 cp1252_console []
              (fleet_of silent) [kane] 0%nat kane eq_refl eq_refl) as (_ & _ & _ & Hlost).
  destruct (Hlost (mkExn UnicodeDecodeError
                     "'charmap' codec can't decode byte: character maps to <undefined>")
              eq_refl) as [Hres Happ].
  split; [|split].
  - eexists. split; [exact Hres|reflexivity].
  - exact Happ.
  - reflexivity.
Defined.

Lemma C3_witness :
  count (is_get_to lobby_reboot_url) (run_of (reachable_with "busy" always_ok) []) = 0%nat /\
  row_status "2 Active Calls" = "Skipped".
Proof.
  destruct (@C3_busy_device_not_rebooted ascii_str bs4 terminal []
              (fleet_of (reachable_with "busy" always_ok)) [lobby] 0%nat lobby
              (browser "busy" always_ok) "1 day" "2 Active Calls"
              eq_refl eq_refl eq_refl eq_refl ltac:(discriminate))
    as (Hcount & _ & Hlabel & _).
  split; [exact Hcount|].
  destruct (Hlabel ltac:(discriminate)) as [Hskipped|Herror];
    [exact Hskipped|discriminate Herror].
Defined.

(** C3 as stated fails on a reachable phone whose page shows the call-state
    "Unreachable": the probe succeeded, the call-state is not
    "0 Active Calls", and the report labels the entry Unreachable, neither
    Skipped nor Error. *)
Lemma C3_counterexample :
  let env := reachable_with "odd" always_ok in
  is_ok (env_ping env) = true /\
  exists uptime callstate,
    appended (run_of env []) = [("10.0.0.5", "Lobby", uptime, callstate)] /\
    callstate <> IDLE /\
    row_status callstate = "Unreachable" /\
    ~ (row_status callstate = "Skipped" \/ row_status callstate = "Error").
Proof.
  split; [reflexivity|]. exists "1 day", "Unreachable".
  repeat split; try discriminate. intros [H|H]; discriminate H.
Qed.


Lemma C6_witness :
  get_email_subject
    [("10.0.0.6", "Desk1", "1 day", "0 Active Calls");
     ("10.0.0.5", "Lobby", "N/A", "Unreachable")]
  = get_email_subject
      [("10.0.0.5", "Lobby", "N/A", "Unreachable");
       ("10.0.0.6", "Desk1", "1 day", "0 Active Calls")].
Proof.
  destruct (C6_subject_existential
              [("10.0.0.5", "Lobby", "N/A", "Unreachable");
               ("10.0.0.6", "Desk1", "1 day", "0 Active Calls")]) as (_ & _ & Hperm).
  apply Hperm. apply perm_swap.
Defined.

Lemma C7_witness :
  result (@main ascii_str bs4 terminal (world_with no_device_file)) = Raise NO_WORKERS /\
  result (@fleet_pass ascii_str bs4 terminal (world_with short_row_file) config)
  = Raise NO_WORKERS.
Proof.
  split.
  - destruct (@C7_empty_fleet_stops_the_script ascii_str bs4 terminal
                (world_with no_device_file) config (fun _ => eq_refl) eq_refl)
      as (_ & _ & _ & _ & Hmain).
    apply Hmain. reflexivity.
  - destruct (@C7_empty_fleet_stops_the_script ascii_str bs4 terminal
                (world_with short_row_file) config (fun _ => eq_refl) eq_refl)
      as (_ & Hpass & _).
    exact Hpass.
Defined.



Lemma C9_witness :
  let env := reachable_with "idle" (fails_on lobby_reboot_url) in
  appended (run_of env [0; 0]%nat) = [("10.0.0.5", "Lobby", "3 days 01:02:03", IDLE)] /\
  row_status IDLE = "Rebooted".
Proof.
  destruct (@C9_failed_reboot_reported_rebooted ascii_str bs4 terminal [0; 0]%nat
              (fleet_of (reachable_with "idle" (fails_on lobby_reboot_url))) [lobby]
              0%nat lobby (browser "idle" (fails_on lobby_reboot_url)) "3 days 01:02:03"
              eq_refl eq_refl eq_refl eq_refl eq_refl) as (Hentry & _).
  split; [exact Hentry|reflexivity].
Defined.

Lemma C10_witness :
  In ("10.0.0.5", "Lobby", "N/A", "N/A")
     (appended (trace (@reboot_ipphone ascii_str bs4 terminal
                         (reachable_with "garbled" always_ok) lobby))) /\
  row_status "N/A" = "Error".
Proof.
  assert (Hin : In ("10.0.0.5", "Lobby", "N/A", "N/A")
                   (appended (trace (@reboot_ipphone ascii_str bs4 terminal
                                       (reachable_with "garbled" always_ok) lobby))))
    by (left; reflexivity).
  split; [exact Hin|].
  destruct (@C10_classification_precedence ascii_str bs4 terminal "N/A")
    as (_ & _ & _ & _ & _ & Htask).
  destruct (Htask (reachable_with "garbled" always_ok) lobby (browser "garbled" always_ok)
              ("10.0.0.5", "Lobby", "N/A", "N/A") eq_refl eq_refl eq_refl Hin)
    as [_ Hlabel].
  exact Hlabel.
Defined.

(** ** Further properties on concrete runs *)


Lemma X2_witness :
  exists cfg, @load_email_config ascii_str (Ok config_xml) = ([], Ok (Some cfg)).
Proof.
  destruct (@load_email_config_valid ascii_str config_xml eq_refl)
    as (cfg & _ & _ & Hload & _).
  exists cfg. exact Hload.
Defined.

Lemma X3_witness :
  exists devices,
    @read_ipphones_from_csv ascii_str terminal lobby_file "devices.csv"
      = ([EReadCsv "devices.csv"], Ok devices) /\
    length devices = 1%nat.
Proof.
  destruct (@read_ipphones_from_csv_well_formed ascii_str terminal [lobby_row] "devices.csv"
              eq_refl)
    as (devices & Hread & Hlen & _).
  exists devices. split; [exact Hread|exact Hlen].
Defined.

Lemma X4_witness :
  exists e,
    @read_ipphones_from_csv ascii_str terminal (Ok [lobby_row; short_row]) "devices.csv"
      = ([EReadCsv "devices.csv"; CSV_ERROR e], Ok []).
Proof.
  exact (@read_ipphones_from_csv_all_or_nothing ascii_str terminal [lobby_row] [] short_row
           "devices.csv" (fun _ => eq_refl) eq_refl).
Defined.


(** X6 with a browser that cannot be closed, on the terminal; and for the
    phone named Kāne on the console whose encoding is cp1252, where the
    browser started is left open. *)
Lemma X6_witness :
  count is_quit (trace (@reboot_ipphone ascii_str bs4 terminal
                          (mkTaskEnv (Ok tt) (Ok stuck_browser)) lobby)) = 1%nat /\
  count is_quit (trace (@reboot_ipphone ascii_str bs4 cp1252_console
                          (reachable_with "idle" always_ok) kane)) = 0%nat.
Proof.
  split.
  - destruct (@browser_closed_once_after_status ascii_str bs4 terminal
                (mkTaskEnv (Ok tt) (Ok stuck_browser)) lobby stuck_browser eq_refl eq_refl)
      as [Hclosed _].
    destruct (Hclosed eq_refl) as [Hquit _]. exact Hquit.
  - destruct (@browser_closed_once_after_status ascii_str bs4 cp1252_console
                (reachable_with "idle" always_ok) kane (browser "idle" always_ok)
                eq_refl eq_refl) as [_ Hleft].
    destruct (Hleft (mkExn UnicodeDecodeError
                       "'charmap' codec can't decode byte: character maps to <undefined>")
                eq_refl) as [_ Hquit].
    exact Hquit.
Defined.

Lemma X7_witness :
  let env := mkTaskEnv (Ok tt) no_chrome in
  @reboot_ipphone ascii_str bs4 terminal env lobby
  = ([EPing "10.0.0.5"; EChrome],
     Raise (mkExn WebDriverException "chromedriver not found")).
Proof.
  destruct (@task_raises_from_browser_start_or_log ascii_str bs4 terminal
              (mkTaskEnv (Ok tt) no_chrome) lobby
              (mkExn WebDriverException "chromedriver not found")) as [Hstart _].
  exact (Hstart eq_refl eq_refl).
Defined.

Lemma X8_witness :
  row_status "0 Active Calls" = "Rebooted" <->
  count (is_get_to lobby_reboot_url)
        (trace (@reboot_ipphone ascii_str bs4 terminal (reachable_with "idle" always_ok) lobby))
  = 1%nat.
Proof.
  destruct (@rebooted_label_iff_reboot_requested ascii_str bs4 terminal
              (reachable_with "idle" always_ok) lobby) as [_ Hentry].
  destruct (Hentry idle_entry (or_introl eq_refl)) as [_ Hiff]. exact Hiff.
Defined.

Lemma X9_witness :
  str_in (report_row 2 "10.0.0.6" "Desk1" "N/A" "Unreachable" "#ff9999" "Unreachable")
         (build_html_report [idle_entry; down_entry]) = true.
Proof.
  destruct (report_has_a_numbered_row_for_each_entry [idle_entry; down_entry] 1
              "10.0.0.6" "Desk1" "N/A" "Unreachable" eq_refl)
    as (colour & label & Hclass & Hrow).
  destruct Hclass as [(_ & -> & ->)|[(H & _)|[(H & _)|(H & _)]]];
    [exact Hrow|discriminate H|now destruct H|discriminate H].
Defined.

Lemma X10_witness :
  result (@save_daily_html_log terminal full_disk [idle_entry]) = Ok tt /\
  filter is_write_file (trace (@save_daily_html_log terminal full_disk [idle_entry]))
    = [EWriteFile "logs/2024-05-01_ipphone_report.html" (build_html_report [idle_entry])].
Proof.
  destruct (@save_failure_is_only_logged terminal full_disk [idle_entry]
              (mkExn OSError "[Errno 28] No space left on device") eq_refl eq_refl)
    as (Hres & Hwrite & _).
  split; [exact (Hres eq_refl)|exact Hwrite].
Defined.

Lemma X11_witness :
  let w := world_on (Ok config_xml) no_logs_dir refusing_smtp in
  result (@fleet_pass ascii_str bs4 terminal w config)
    = Raise (mkExn OSError "[Errno 13] Permission denied: 'logs'") /\
  filter is_smtp (map snd (trace (@fleet_pass ascii_str bs4 terminal w config))) = [].
Proof.
  destruct (@missing_logs_dir_stops_the_script ascii_str bs4 terminal
              (world_on (Ok config_xml) no_logs_dir refusing_smtp) config [lobby]
              (mkExn OSError "[Errno 13] Permission denied: 'logs'")
              (fun _ => eq_refl) eq_refl ltac:(discriminate) eq_refl eq_refl)
    as (Hres & _ & Hsmtp & _).
  split; [exact Hres|exact Hsmtp].
Defined.

Lemma X12_witness :
  let run := @send_error_email terminal second_try_smtp [idle_entry] 3 300 in
  result run = Ok tt /\ count is_smtp (trace run) = 2%nat.
Proof.
  destruct (@send_stops_at_first_success terminal second_try_smtp [idle_entry] 3 300 2
              (fun _ => eq_refl) ltac:(lia) ltac:(lia)
              ltac:(intros attempt Hrange; assert (attempt = 1) as -> by lia; reflexivity)
              eq_refl)
    as (Hres & _ & Hsmtp).
  split; [exact Hres|exact Hsmtp].
Defined.

Lemma X13_witness :
  @send_error_email terminal refusing_smtp [down_entry] 0 300 = ([], Ok tt).
Proof.
  exact (@send_without_retries_does_nothing terminal refusing_smtp [down_entry] 0 300
           ltac:(lia)).
Defined.

Lemma X14_witness :
  result (@send_error_email terminal refusing_smtp [down_entry] 2 (-1))
  = Raise (mkExn ValueError "sleep length must be non-negative").
Proof.
  destruct (@negative_cooldown_escapes_the_notifier terminal refusing_smtp [down_entry]
              2 (-1) (fun _ => eq_refl) ltac:(lia) ltac:(lia) eq_refl) as (Hres & _).
  exact Hres.
Defined.

(** X15 for the phone named Kāne, answering the ping, on the console whose
    encoding is cp1252: its task does not return, and the run ends without
    an entry for it. *)
Lemma X15_witness :
  let entries :=
    log_entries_of
      (trace (@executor_map ascii_str bs4 cp1252_console []
                (fleet_of (reachable_with "idle" always_ok)) [lobby; kane])) in
  (1 <= length entries <= 2)%nat /\ entries = [idle_entry].
Proof.
  split; [|reflexivity].
  exact (proj1 (@entries_between_returned_tasks_and_devices ascii_str bs4 cp1252_console []
                  (fleet_of (reachable_with "idle" always_ok)) [lobby; kane])).
Defined.

Lemma X16_witness :
  filter is_smtp
    (map snd (trace (@fleet_pass ascii_str bs4 terminal
                       (world_on (Ok config_xml) disk refusing_smtp) quiet_config))) = [].
Proof.
  exact (@no_mail_when_flag_is_off ascii_str bs4 terminal
           (world_on (Ok config_xml) disk refusing_smtp) quiet_config eq_refl).
Defined.

Lemma X17_witness :
  let w := world_on (Ok config_xml) full_disk refusing_smtp in
  result (@fleet_pass ascii_str bs4 terminal w config) = Ok Finished /\
  count is_smtp (map snd (trace (@fleet_pass ascii_str bs4 terminal w config))) = 2%nat.
Proof.
  destruct (@report_saved_then_mailed ascii_str bs4 terminal
              (world_on (Ok config_xml) full_disk refusing_smtp) config [lobby]
              (fun _ => eq_refl) eq_refl ltac:(discriminate) eq_refl eq_refl)
    as (Hres & _ & Hsmtp).
  split; [exact Hres|]. unfold count. rewrite Hsmtp. reflexivity.
Defined.

Lemma X18_witness :
  exists device, In device [lobby] /\ entry_for device idle_entry.
Proof.
  apply (@every_entry_is_of_a_listed_device ascii_str bs4 terminal []
           (fleet_of (reachable_with "idle" always_ok)) [lobby] idle_entry).
  left. reflexivity.
Defined.
